(** * Altman Z-Score application (app.py)

    A shallow embedding of the three computational parts of [app.py]:
    the field resolver [get_financial_data], the historical series builder
    [get_historical_financials] and the calculator [calculate_z_score] with
    its classifier [interpret_z_score].

    Conventions of the embedding.
    - Statement values are numbers; the resolver and the series builder are
      embedded over exact rationals [Q], and what is stated of them is which
      cells a value is read from, which expression it is and how it
      compares.  A pandas cell is a float and is never [None], so "found"
      and "not None" coincide, as in the source.  What the calculator
      returns is stated on its binary64 embedding ([Binary64]), with the
      rounding of every operation.
    - A statement table is a pandas [DataFrame]: row labels ([index]), period
      columns ([columns], the provider lists the most recent first) and the
      cell accessor [loc].
    - Period columns are midnight timestamps; a difference of two of them is a
      whole number of days.
    - Python dictionaries are finite maps ([gmap]); the dictionary of
      components, whose insertion order is printed, is an association list.
    - Every cell read is at a label taken from the frame's own index and
      columns, so no lookup raises and the [except] branches of the two
      readers are never entered; they are left out.  Not-a-number cells and
      the formatting of dates and numbers into text are outside the
      embedding. *)

From Stdlib Require Import ZArith QArith Qabs Ascii String List Lia Floats.
From Stdlib Require Import Sorting.Sorted Sorting.Permutation Lqa.
From stdpp Require Import base gmap strings list.

Set Warnings "-inexact-float".
Open Scope string_scope.

(** ** pandas: timestamps and data frames *)

Module pd.

(** A period column label, e.g. [Timestamp('2023-09-30')]. *)
Record Timestamp : Type := mkTimestamp { year : Z; month : Z; day : Z }.

(** Days since 1970-01-01 in the proleptic Gregorian calendar (the usual
    era/year-of-era/day-of-year computation); [Z.div] rounds down. *)
Definition toordinal (t : Timestamp) : Z :=
  let y := (if month t <=? 2 then year t - 1 else year t)%Z in
  let era := (y / 400)%Z in
  let yoe := (y - era * 400)%Z in
  let mp := (if 2 <? month t then month t - 3 else month t + 9)%Z in
  let doy := ((153 * mp + 2) / 5 + day t - 1)%Z in
  let doe := (yoe * 365 + yoe / 4 - yoe / 100 + doy)%Z in
  (era * 146097 + doe - 719468)%Z.

(** [abs(a - b)] as a number of days. *)
Definition abs_diff_days (a b : Timestamp) : Z :=
  Z.abs (toordinal a - toordinal b).

Record DataFrame : Type := mkDataFrame {
  index : list string;
  columns : list Timestamp;
  loc : string -> Timestamp -> Q
}.

(** [df.empty]: some axis has length zero. *)
Definition empty (df : DataFrame) : bool :=
  match index df, columns df with
  | _ :: _, _ :: _ => false
  | _, _ => true
  end.

(** [field in df.index] *)
Definition in_index (field : string) (df : DataFrame) : bool :=
  bool_decide (field ∈ index df).

End pd.

(** ** Z-Score calculator *)

(** The weighted sum of the docstring over exact rationals, the number type
    of the embedding.  It has no rounding: what the source returns on floats
    is [Binary64.calculate_z_score] below.  It is used where a statement only
    says which expression over which cells a value is. *)
Definition calculate_z_score (x1 x2 x3 x4 x5 : Q) : Q :=
  (1.2 * x1 + 1.4 * x2 + 3.3 * x3 + 0.6 * x4 + 0.999 * x5)%Q.

Definition Low_Risk_explanation : string :=
  "**Safe Zone:** This company appears to be financially sound with low bankruptcy risk within the next 2 years. The strong Z-Score indicates good financial health.".
Definition Grey_Zone_explanation : string :=
  "**Grey Zone:** This company shows some financial stress and moderate bankruptcy risk. Further analysis is recommended as the Z-Score falls in an indeterminate range.".
Definition High_Risk_explanation : string :=
  "**Distress Zone:** This company shows significant financial distress with high bankruptcy risk within the next 2 years. The low Z-Score indicates serious financial problems.".

(** [a > b] on rationals. *)
Definition Qgt_bool (a b : Q) : bool := negb (Qle_bool a b).
(** [a >= b] on rationals. *)
Definition Qge_bool (a b : Q) : bool := Qle_bool b a.

(** [interpret_z_score]: the pair (category, explanation). *)
Definition interpret_z_score (z_score : Q) : string * string :=
  if Qgt_bool z_score 2.99 then ("Low Risk", Low_Risk_explanation)
  else if Qge_bool z_score 1.81 then ("Grey Zone", Grey_Zone_explanation)
  else ("High Risk", High_Risk_explanation).

(** The same two functions over binary64 floats, with Python's left-to-right
    evaluation of the sum. *)
Module Binary64.

Definition calculate_z_score (x1 x2 x3 x4 x5 : float) : float :=
  (1.2 * x1 + 1.4 * x2 + 3.3 * x3 + 0.6 * x4 + 0.999 * x5)%float.

Definition interpret_z_score (z_score : float) : string * string :=
  if PrimFloat.ltb 2.99 z_score then ("Low Risk", Low_Risk_explanation)
  else if PrimFloat.leb 1.81 z_score then ("Grey Zone", Grey_Zone_explanation)
  else ("High Risk", High_Risk_explanation).

(** The exact value of a finite float (0 for infinities and not-a-number). *)
Definition to_Q (x : float) : Q :=
  match Prim2SF x with
  | S754_finite s m e =>
      ((if s then -1 else 1) * inject_Z (Zpos m) * Qpower 2 e)%Q
  | _ => 0%Q
  end.

End Binary64.

(** ** Field resolver *)

(** [ticker.info]: the numeric entries and the text entries of the one
    company-info dictionary.  A key may be present with the value [None]
    (the provider sends such entries), so a value is an [option]. *)
Record Info : Type := mkInfo {
  numbers : gmap string (option Q);
  texts : gmap string (option string)
}.

(** [d.get(key)], also written [d.get(key, None)]: [None] for a missing key
    and for a key whose value is [None]. *)
Definition dict_get {A : Type} (d : gmap string (option A)) (key : string)
    : option A :=
  match d !! key with
  | Some v => v
  | None => None
  end.

(** [d.get(key, default)]: the default stands in for a missing key only; a
    key whose value is [None] gives [None]. *)
Definition dict_get_default {A : Type} (d : gmap string (option A))
    (key : string) (default : option A) : option A :=
  match d !! key with
  | Some v => v
  | None => default
  end.

(** What [yf.Ticker(ticker_symbol)] offers to the two readers. *)
Record Ticker : Type := mkTicker {
  balance_sheet : pd.DataFrame;
  financials : pd.DataFrame;
  quarterly_balance_sheet : pd.DataFrame;
  quarterly_financials : pd.DataFrame;
  info : Info
}.

(** First component of a [field_values] entry: a field name or fixed text, or
    an f-string [Calculated from {a} <op> {b}] with two formatted numbers. *)
Inductive Description : Type :=
| Text (s : string)
| Calculated_from (a : Q) (op : string) (b : Q).

(** Second component: a period column, or one of the labels ['latest'],
    ['current'], ['N/A']. *)
Inductive Period : Type :=
| At (date : pd.Timestamp)
| Label (s : string).

(** A [field_values] entry: (description, period, source kind). *)
Definition Entry : Type := Description * Period * string.

(** [str.upper] on the ASCII letters.  On ASCII strings this is Python's
    [upper]; characters beyond ASCII are left as they are.  No character
    beyond ASCII upper-cases to A, P or L, so the test against ['AAPL'] is
    decided by the ASCII letters alone, for every symbol. *)
Definition upper_ascii (c : ascii) : ascii :=
  let n := nat_of_ascii c in
  if ((97 <=? n) && (n <=? 122))%nat then ascii_of_nat (n - 32) else c.

Fixpoint upper (s : string) : string :=
  match s with
  | EmptyString => EmptyString
  | String c rest => String (upper_ascii c) (upper rest)
  end.

(** [df.columns[0]] guarded by [not df.empty]. *)
Definition first_column (df : pd.DataFrame) : option pd.Timestamp :=
  if pd.empty df then None else head (pd.columns df).

(** [if has_<key>: dates[key] = df.columns[0]] *)
Definition add_date (key : string) (df : pd.DataFrame)
    (dates : gmap string pd.Timestamp) : gmap string pd.Timestamp :=
  match first_column df with
  | Some d => <[key := d]> dates
  | None => dates
  end.

Definition statement_dates (t : Ticker) : gmap string pd.Timestamp :=
  add_date "qfs" (quarterly_financials t)
    (add_date "qbs" (quarterly_balance_sheet t)
       (add_date "fs" (financials t)
          (add_date "bs" (balance_sheet t) ∅))).

(** [if has_<key>: available_fields[key] = list(df.index)] *)
Definition add_fields (key : string) (df : pd.DataFrame)
    (m : gmap string (list string)) : gmap string (list string) :=
  if pd.empty df then m else <[key := pd.index df]> m.

Definition statement_fields (t : Ticker) : gmap string (list string) :=
  add_fields "quarterly_financials" (quarterly_financials t)
    (add_fields "quarterly_balance_sheet" (quarterly_balance_sheet t)
       (add_fields "financials" (financials t)
          (add_fields "balance_sheet" (balance_sheet t) ∅))).

Definition statement_debug_info (t : Ticker) : gmap string bool :=
  <["has_quarterly_financials" := negb (pd.empty (quarterly_financials t))]>
    (<["has_quarterly_balance_sheet" := negb (pd.empty (quarterly_balance_sheet t))]>
       (<["has_financials" := negb (pd.empty (financials t))]>
          (<["has_balance_sheet" := negb (pd.empty (balance_sheet t))]> ∅))).

(** [latest_bs_date = dates.get('bs', dates.get('qbs'))] *)
Definition latest_bs_date (t : Ticker) : option pd.Timestamp :=
  match statement_dates t !! "bs" with
  | Some d => Some d
  | None => statement_dates t !! "qbs"
  end.

(** [latest_fs_date = dates.get('fs', dates.get('qfs'))] *)
Definition latest_fs_date (t : Ticker) : option pd.Timestamp :=
  match statement_dates t !! "fs" with
  | Some d => Some d
  | None => statement_dates t !! "qfs"
  end.

(** The inner loop [for field in field_names: if field in source.index: ...;
    break]: the first listed name that labels a row. *)
Fixpoint first_in_index (source : pd.DataFrame) (field_names : list string)
    : option string :=
  match field_names with
  | [] => None
  | field :: rest =>
      if pd.in_index field source then Some field
      else first_in_index source rest
  end.

(** One round of the outer loop: the guard [not source.empty and date is not
    None], then the inner loop; the hit is (field, date, source.loc[field, date]). *)
Definition find_field (source : pd.DataFrame) (date : option pd.Timestamp)
    (field_names : list string) : option (string * pd.Timestamp * Q) :=
  if pd.empty source then None
  else match date with
       | None => None
       | Some d =>
           match first_in_index source field_names with
           | Some field => Some (field, d, pd.loc source field d)
           | None => None
           end
       end.

(** [for source, date, field_names in [...]] leaving at the first hit. *)
Fixpoint find_first
    (attempts : list (pd.DataFrame * option pd.Timestamp * list string))
    : option (string * pd.Timestamp * Q) :=
  match attempts with
  | [] => None
  | (source, date, field_names) :: rest =>
      match find_field source date field_names with
      | Some hit => Some hit
      | None => find_first rest
      end
  end.

(** A direct lookup and its entry (field, date, source name).  A DataFrame has
    no attribute [name], so the source name is the literal of the [else]. *)
Definition direct
    (attempts : list (pd.DataFrame * option pd.Timestamp * list string))
    (source_name : string) : option (Q * Entry) :=
  match find_first attempts with
  | Some (field, date, value) => Some (value, (Text field, At date, source_name))
  | None => None
  end.

(** Annual statement at the primary date, then the quarterly one at its own. *)
Definition bs_attempts (t : Ticker) (bs_date : pd.Timestamp)
    (field_names : list string)
    : list (pd.DataFrame * option pd.Timestamp * list string) :=
  [ (balance_sheet t, Some bs_date, field_names);
    (quarterly_balance_sheet t, statement_dates t !! "qbs", field_names) ].

Definition fs_attempts (t : Ticker) (fs_date : pd.Timestamp)
    (field_names : list string)
    : list (pd.DataFrame * option pd.Timestamp * list string) :=
  [ (financials t, Some fs_date, field_names);
    (quarterly_financials t, statement_dates t !! "qfs", field_names) ].

(** *** The eight quantities *)

Definition total_assets_fields : list string := ["Total Assets"; "TotalAssets"].
Definition total_liabilities_fields : list string :=
  ["Total Liab"; "TotalLiab"; "Total Liabilities"].
Definition stockholder_equity_fields : list string :=
  ["Total Stockholder Equity"; "StockholdersEquity"; "Stockholders Equity"].
Definition current_assets_fields : list string :=
  ["Total Current Assets"; "CurrentAssets"; "totalCurrentAssets";
   "Current Assets"; "Total Current Assets Total"].
Definition current_liabilities_fields : list string :=
  ["Total Current Liabilities"; "CurrentLiabilities"; "totalCurrentLiabilities";
   "Current Liabilities"; "Total Current Liabilities Total"].
Definition retained_earnings_fields : list string :=
  ["Retained Earnings"; "RetainedEarnings"].
Definition ebit_fields : list string :=
  ["Ebit"; "EBIT"; "Operating Income"; "OperatingIncome"].
Definition sales_fields : list string :=
  ["Total Revenue"; "Revenue"; "TotalRevenue"].

(** The component tables, in the order the dictionary literals list them. *)
Definition current_assets_components : list (string * list string) :=
  [ ("cash", ["Cash And Cash Equivalents"; "Cash"; "CashAndCashEquivalents";
              "cashAndCashEquivalents"]);
    ("short_term_investments", ["Short Term Investments"; "ShortTermInvestments";
                                "shortTermInvestments"]);
    ("receivables", ["Net Receivables"; "Receivables"; "AccountsReceivable";
                     "accountsReceivable"]);
    ("inventory", ["Inventory"; "Inventories"; "inventory"; "inventories"]);
    ("other_current", ["Other Current Assets"; "OtherCurrentAssets";
                       "otherCurrentAssets"]) ].

Definition current_liabilities_components : list (string * list string) :=
  [ ("accounts_payable", ["Accounts Payable"; "AccountsPayable"; "accountsPayable"]);
    ("short_term_debt", ["Short Term Debt"; "ShortTermDebt"; "shortTermDebt"]);
    ("accrued_liabilities", ["Accrued Liabilities"; "AccruedLiabilities";
                             "accruedLiabilities"]);
    ("other_current_liab", ["Other Current Liabilities"; "OtherCurrentLiabilities";
                            "otherCurrentLiabilities"]) ].

(** 1. Total Assets *)
Definition resolve_total_assets (t : Ticker) (bs_date : pd.Timestamp)
    : option (Q * Entry) :=
  direct (bs_attempts t bs_date total_assets_fields) "balance_sheet".

(** 2. Total Liabilities: direct, else Total Assets - Shareholder Equity. *)
Definition resolve_total_liabilities (t : Ticker) (bs_date : pd.Timestamp)
    (total_assets : option Q) : option (Q * Entry) :=
  match direct (bs_attempts t bs_date total_liabilities_fields) "balance_sheet" with
  | Some r => Some r
  | None =>
      match total_assets with
      | None => None
      | Some ta =>
          match find_first (bs_attempts t bs_date stockholder_equity_fields) with
          | Some (_, date, equity) =>
              Some ((ta - equity)%Q,
                    (Calculated_from ta "-" equity, At date, "calculated"))
          | None => None
          end
      end
  end.

(** The loop that fills [components] and [component_sources]: one triple
    (component, source field, value) per component found, in table order. *)
Fixpoint gather_components (t : Ticker) (bs_date : pd.Timestamp)
    (table : list (string * list string)) : list (string * string * Q) :=
  match table with
  | [] => []
  | (component, field_names) :: rest =>
      match find_first (bs_attempts t bs_date field_names) with
      | Some (field, _, value) =>
          (component, field, value) :: gather_components t bs_date rest
      | None => gather_components t bs_date rest
      end
  end.

Definition component_names (components : list (string * string * Q)) : list string :=
  map (fun c => fst (fst c)) components.
Definition component_sources (components : list (string * string * Q)) : list string :=
  map (fun c => snd (fst c)) components.
Definition component_values (components : list (string * string * Q)) : list Q :=
  map snd components.

(** Python's [sum(...)]: from 0, left to right. *)
Definition py_sum (values : list Q) : Q := fold_left Qplus values 0%Q.

(** [f"Calculated from {'+'.join(...)}"] *)
Definition source_desc (components : list (string * string * Q)) : Description :=
  Text ("Calculated from " ++ String.concat "+" (component_sources components)).

(** Current assets from components: needs cash and at least three of them. *)
Definition current_assets_from_components (t : Ticker) (bs_date : pd.Timestamp)
    : option (Q * Entry) :=
  let components := gather_components t bs_date current_assets_components in
  if bool_decide ("cash" ∈ component_names components)
     && (3 <=? length components)%nat
  then Some (py_sum (component_values components),
             (source_desc components, At bs_date, "calculated"))
  else None.

(** Current liabilities from components: needs at least two of them. *)
Definition current_liabilities_from_components (t : Ticker) (bs_date : pd.Timestamp)
    : option (Q * Entry) :=
  let components := gather_components t bs_date current_liabilities_components in
  if (2 <=? length components)%nat
  then Some (py_sum (component_values components),
             (source_desc components, At bs_date, "calculated"))
  else None.

Definition manual_override : Entry := (Text "Manual override", Label "latest", "hardcoded").

(** The [else] branch of 3.: name variations, then components. *)
Definition lookup_current_assets (t : Ticker) (bs_date : pd.Timestamp)
    : option (Q * Entry) :=
  match direct (bs_attempts t bs_date current_assets_fields) "balance_sheet" with
  | Some r => Some r
  | None => current_assets_from_components t bs_date
  end.

(** 3. Current Assets *)
Definition resolve_current_assets (ticker_symbol : string) (t : Ticker)
    (bs_date : pd.Timestamp) : option (Q * Entry) :=
  if String.eqb (upper ticker_symbol) "AAPL"
  then Some (143600000000%Q, manual_override)
  else lookup_current_assets t bs_date.

(** The [else] branch of 4. *)
Definition lookup_current_liabilities (t : Ticker) (bs_date : pd.Timestamp)
    : option (Q * Entry) :=
  match direct (bs_attempts t bs_date current_liabilities_fields) "balance_sheet" with
  | Some r => Some r
  | None => current_liabilities_from_components t bs_date
  end.

(** 4. Current Liabilities *)
Definition resolve_current_liabilities (ticker_symbol : string) (t : Ticker)
    (bs_date : pd.Timestamp) : option (Q * Entry) :=
  if String.eqb (upper ticker_symbol) "AAPL"
  then Some (125600000000%Q, manual_override)
  else lookup_current_liabilities t bs_date.

(** [if a in index: x = loc[a] elif b in index: x = loc[b]]; otherwise [x]
    keeps the value it had. *)
Definition pick (source : pd.DataFrame) (date : pd.Timestamp)
    (field_names : list string) (previous : option Q) : option Q :=
  match first_in_index source field_names with
  | Some field => Some (pd.loc source field date)
  | None => previous
  end.

(** Equity - common stock; [equity] and [common_stock] live across the rounds
    of the loop over the two sources. *)
Fixpoint derive_retained_earnings
    (sources : list (pd.DataFrame * option pd.Timestamp))
    (equity common_stock : option Q) : option (Q * Entry) :=
  match sources with
  | [] => None
  | (source, date) :: rest =>
      if pd.empty source then derive_retained_earnings rest equity common_stock
      else match date with
           | None => derive_retained_earnings rest equity common_stock
           | Some d =>
               let equity :=
                 pick source d ["Total Stockholder Equity"; "StockholdersEquity"] equity in
               let common_stock :=
                 pick source d ["Common Stock"; "CommonStock"] common_stock in
               match equity, common_stock with
               | Some e, Some c =>
                   Some ((e - c)%Q, (Calculated_from e "-" c, At d, "calculated"))
               | _, _ => derive_retained_earnings rest equity common_stock
               end
           end
  end.

(** 5. Retained Earnings *)
Definition resolve_retained_earnings (t : Ticker) (bs_date : pd.Timestamp)
    : option (Q * Entry) :=
  match direct (bs_attempts t bs_date retained_earnings_fields) "balance_sheet" with
  | Some r => Some r
  | None =>
      derive_retained_earnings
        [ (balance_sheet t, Some bs_date);
          (quarterly_balance_sheet t, statement_dates t !! "qbs") ] None None
  end.

(** Net Income + |Interest| + |Taxes|; the three parts live across the rounds. *)
Fixpoint derive_ebit (sources : list (pd.DataFrame * option pd.Timestamp))
    (net_income interest_expense income_tax : option Q) : option (Q * Entry) :=
  match sources with
  | [] => None
  | (source, date) :: rest =>
      if pd.empty source
      then derive_ebit rest net_income interest_expense income_tax
      else match date with
           | None => derive_ebit rest net_income interest_expense income_tax
           | Some d =>
               let net_income := pick source d ["Net Income"; "NetIncome"] net_income in
               let interest_expense :=
                 pick source d ["Interest Expense"; "InterestExpense"] interest_expense in
               let income_tax :=
                 pick source d ["Income Tax Expense"; "IncomeTaxExpense"; "Tax Provision"]
                      income_tax in
               match net_income, interest_expense, income_tax with
               | Some n, Some i, Some x =>
                   Some ((n + Qabs i + Qabs x)%Q,
                         (Text "Calculated from Net Income + Interest + Taxes",
                          At d, "calculated"))
               | _, _, _ => derive_ebit rest net_income interest_expense income_tax
               end
           end
  end.

(** 6. EBIT *)
Definition resolve_ebit (t : Ticker) (fs_date : pd.Timestamp) : option (Q * Entry) :=
  match direct (fs_attempts t fs_date ebit_fields) "financials" with
  | Some r => Some r
  | None =>
      derive_ebit
        [ (financials t, Some fs_date);
          (quarterly_financials t, statement_dates t !! "qfs") ] None None None
  end.

(** 7. Sales/Revenue *)
Definition resolve_sales (t : Ticker) (fs_date : pd.Timestamp) : option (Q * Entry) :=
  direct (fs_attempts t fs_date sales_fields) "financials".

(** 8. Market Cap: the info entry, else share price * shares outstanding. *)
Definition resolve_market_cap (t : Ticker) : option (Q * Entry) :=
  match dict_get (numbers (info t)) "marketCap" with
  | Some market_cap => Some (market_cap, (Text "marketCap", Label "current", "ticker.info"))
  | None =>
      let share_price :=
        dict_get_default (numbers (info t)) "regularMarketPrice"
          (dict_get (numbers (info t)) "currentPrice") in
      match share_price, dict_get (numbers (info t)) "sharesOutstanding" with
      | Some p, Some n =>
          Some ((p * n)%Q, (Calculated_from p "*" n, Label "current", "calculated"))
      | _, _ => None
      end
  end.

(** *** The resolver *)

(** The local variables of [get_financial_data] once the eight attempts and the
    working-capital step are done. *)
Record Resolved : Type := mkResolved {
  total_assets : option Q;
  total_liabilities : option Q;
  current_assets : option Q;
  current_liabilities : option Q;
  retained_earnings : option Q;
  ebit : option Q;
  sales : option Q;
  market_cap : option Q;
  working_capital : option Q;
  field_values : gmap string Entry
}.

(** [field_values[key] = entry], done exactly where the value is assigned. *)
Definition note (key : string) (r : option (Q * Entry))
    (fv : gmap string Entry) : gmap string Entry :=
  match r with
  | Some (_, entry) => <[key := entry]> fv
  | None => fv
  end.

Definition value (r : option (Q * Entry)) : option Q :=
  match r with
  | Some (v, _) => Some v
  | None => None
  end.

(** Working capital and its entry. *)
Definition resolve_working_capital (current_assets current_liabilities : option Q)
    : option (Q * Entry) :=
  match current_assets, current_liabilities with
  | Some ca, Some cl =>
      Some ((ca - cl)%Q, (Calculated_from ca "-" cl, Label "N/A", "calculated"))
  | _, _ => None
  end.

(** The field-lookup phase: lines 134-421 of the source, in order. *)
Definition resolve (ticker_symbol : string) (t : Ticker)
    (bs_date fs_date : pd.Timestamp) : Resolved :=
  let r_ta := resolve_total_assets t bs_date in
  let fv := note "total_assets" r_ta ∅ in
  let r_tl := resolve_total_liabilities t bs_date (value r_ta) in
  let fv := note "total_liabilities" r_tl fv in
  let r_ca := resolve_current_assets ticker_symbol t bs_date in
  let fv := note "current_assets" r_ca fv in
  let r_cl := resolve_current_liabilities ticker_symbol t bs_date in
  let fv := note "current_liabilities" r_cl fv in
  let r_re := resolve_retained_earnings t bs_date in
  let fv := note "retained_earnings" r_re fv in
  let r_ebit := resolve_ebit t fs_date in
  let fv := note "ebit" r_ebit fv in
  let r_sales := resolve_sales t fs_date in
  let fv := note "sales" r_sales fv in
  let r_mc := resolve_market_cap t in
  let fv := note "market_cap" r_mc fv in
  let r_wc := resolve_working_capital (value r_ca) (value r_cl) in
  let fv := note "working_capital" r_wc fv in
  {| total_assets := value r_ta;
     total_liabilities := value r_tl;
     current_assets := value r_ca;
     current_liabilities := value r_cl;
     retained_earnings := value r_re;
     ebit := value r_ebit;
     sales := value r_sales;
     market_cap := value r_mc;
     working_capital := value r_wc;
     field_values := fv |}.

(** [if x is None: missing_fields.append(name)] *)
Definition append_if_None (x : option Q) (name : string)
    (missing_fields : list string) : list string :=
  match x with
  | None => (missing_fields ++ [name])%list
  | Some _ => missing_fields
  end.

Definition missing_fields (r : Resolved) : list string :=
  append_if_None (market_cap r) "Market Cap"
    (append_if_None (sales r) "Sales"
       (append_if_None (ebit r) "EBIT"
          (append_if_None (retained_earnings r) "Retained Earnings"
             (append_if_None (current_liabilities r) "Current Liabilities"
                (append_if_None (current_assets r) "Current Assets"
                   (append_if_None (total_liabilities r) "Total Liabilities"
                      (append_if_None (total_assets r) "Total Assets" []))))))).

(** The result dictionary. *)
Module FinancialData.
Record t : Type := mk {
  company_name : option string;
  ticker : string;
  report_date : pd.Timestamp;
  total_assets : Q;
  total_liabilities : Q;
  current_assets : Q;
  current_liabilities : Q;
  working_capital : Q;
  retained_earnings : Q;
  ebit : Q;
  sales : Q;
  market_value_equity : Q;
  field_sources : gmap string Entry
}.
End FinancialData.

(** Fourth component of the returned tuple: [debug_info] on the early return,
    [field_values] afterwards. *)
Inductive Diagnostics : Type :=
| Debug_info (d : gmap string bool)
| Field_values (fv : gmap string Entry).

(** The returned 4-tuple (financial_data, error, available_fields, diagnostics). *)
Definition Result : Type :=
  option FinancialData.t * option string * gmap string (list string) * Diagnostics.

Definition no_data_error : string :=
  "No balance sheet or income statement data available for this ticker".

Definition missing_error (missing : list string) : string :=
  "Missing required financial data: " ++ String.concat ", " missing.

(** Lines 437-458: all values are present here. *)
Definition financial_data (ticker_symbol : string) (t : Ticker)
    (bs_date : pd.Timestamp) (r : Resolved) : option FinancialData.t :=
  match total_assets r, total_liabilities r, current_assets r,
        current_liabilities r, working_capital r, retained_earnings r,
        ebit r, sales r, market_cap r with
  | Some ta, Some tl, Some ca, Some cl, Some wc, Some re, Some e, Some s, Some mc =>
      Some {| FinancialData.company_name :=
                dict_get_default (texts (info t)) "longName" (Some ticker_symbol);
              FinancialData.ticker := ticker_symbol;
              FinancialData.report_date := bs_date;
              FinancialData.total_assets := ta;
              FinancialData.total_liabilities := tl;
              FinancialData.current_assets := ca;
              FinancialData.current_liabilities := cl;
              FinancialData.working_capital := wc;
              FinancialData.retained_earnings := re;
              FinancialData.ebit := e;
              FinancialData.sales := s;
              FinancialData.market_value_equity := mc;
              FinancialData.field_sources := field_values r |}
  | _, _, _, _, _, _, _, _, _ => None
  end.

(** [get_financial_data(ticker_symbol)], with the fetched statements [t]. *)
Definition get_financial_data (ticker_symbol : string) (t : Ticker) : Result :=
  match latest_bs_date t, latest_fs_date t with
  | Some bs_date, Some fs_date =>
      let r := resolve ticker_symbol t bs_date fs_date in
      match missing_fields r with
      | [] =>
          (financial_data ticker_symbol t bs_date r, None,
           statement_fields t, Field_values (field_values r))
      | missing =>
          (None, Some (missing_error missing),
           statement_fields t, Field_values (field_values r))
      end
  | _, _ =>
      (None, Some no_data_error, statement_fields t,
       Debug_info (statement_debug_info t))
  end.

(** ** Historical series builder *)

(** One row of the returned frame. *)
Record HistoricalPoint : Type := mkHistoricalPoint {
  date : Z;
  z_score : Q;
  working_capital_ratio : Q;
  retained_earnings_ratio : Q;
  ebit_ratio : Q;
  market_equity_ratio : Q;
  sales_ratio : Q
}.

(** The search for the closest income-statement date: the loop over
    [financials.columns] with its two variables, started at (None, 365 days). *)
Fixpoint closest (bs_date : pd.Timestamp) (is_dates : list pd.Timestamp)
    (closest_date : option pd.Timestamp) (closest_diff : Z)
    : option pd.Timestamp * Z :=
  match is_dates with
  | [] => (closest_date, closest_diff)
  | is_date :: rest =>
      let diff := pd.abs_diff_days bs_date is_date in
      if (diff <? closest_diff)%Z
      then closest bs_date rest (Some is_date) diff
      else closest bs_date rest closest_date closest_diff
  end.

(** [df.loc[field, date] if field in df.index else None] *)
Definition cell (df : pd.DataFrame) (field : string) (date : pd.Timestamp)
    : option Q :=
  if pd.in_index field df then Some (pd.loc df field date) else None.

(** The body of the loop after the year check: [None] stands for [continue].
    With a zero denominator the floats of the source are inf or nan, which
    rationals do not have ([x / 0] is 0 here); nothing below reads a ratio at a
    zero denominator. *)
Definition period_point (t : Ticker) (bs_date : pd.Timestamp)
    : option HistoricalPoint :=
  match closest bs_date (pd.columns (financials t)) None 365 with
  | (None, _) => None
  | (Some closest_date, closest_diff) =>
      if (180 <? closest_diff)%Z then None
      else
        match cell (balance_sheet t) "Total Assets" bs_date,
              cell (balance_sheet t) "Total Liab" bs_date,
              cell (balance_sheet t) "Total Current Assets" bs_date,
              cell (balance_sheet t) "Total Current Liabilities" bs_date,
              cell (balance_sheet t) "Retained Earnings" bs_date,
              cell (financials t) "Ebit" closest_date,
              cell (financials t) "Total Revenue" closest_date,
              dict_get (numbers (info t)) "marketCap" with
        | Some total_assets, Some total_liabilities, Some current_assets,
          Some current_liabilities, Some retained_earnings, Some ebit,
          Some sales, Some market_cap =>
            let working_capital := (current_assets - current_liabilities)%Q in
            let x1 := (working_capital / total_assets)%Q in
            let x2 := (retained_earnings / total_assets)%Q in
            let x3 := (ebit / total_assets)%Q in
            let x4 := (market_cap / total_liabilities)%Q in
            let x5 := (sales / total_assets)%Q in
            let z := (1.2 * x1 + 1.4 * x2 + 3.3 * x3 + 0.6 * x4 + 0.999 * x5)%Q in
            Some {| date := pd.year bs_date;
                    z_score := z;
                    working_capital_ratio := x1;
                    retained_earnings_ratio := x2;
                    ebit_ratio := x3;
                    market_equity_ratio := x4;
                    sales_ratio := x5 |}
        | _, _, _, _, _, _, _, _ => None
        end
  end.

(** One round of [for bs_date in balance_sheet.columns] on the state
    (historical_data, used_dates). *)
Definition process (t : Ticker) (state : list HistoricalPoint * gset Z)
    (bs_date : pd.Timestamp) : list HistoricalPoint * gset Z :=
  let year := pd.year bs_date in
  if bool_decide (year ∈ snd state) then state
  else match period_point t bs_date with
       | None => state
       | Some point => ((fst state ++ [point])%list, snd state ∪ {[year]})
       end.

Definition collect (t : Ticker) : list HistoricalPoint * gset Z :=
  fold_left (process t) (pd.columns (balance_sheet t)) ([], ∅).

(** [df.sort_values('date')]: ascending by year. *)
Fixpoint insert_by_date (p : HistoricalPoint) (l : list HistoricalPoint)
    : list HistoricalPoint :=
  match l with
  | [] => [p]
  | q :: rest =>
      if (date p <=? date q)%Z then p :: q :: rest
      else q :: insert_by_date p rest
  end.

Definition sort_values (l : list HistoricalPoint) : list HistoricalPoint :=
  fold_right insert_by_date [] l.

(** [get_historical_financials(ticker_symbol, years=5)] with the fetched
    statements [t]; the pair (frame, error).  The body never reads [years]. *)
Definition get_historical_financials (t : Ticker) (years : Z)
    : option (list HistoricalPoint) * option string :=
  if pd.empty (balance_sheet t) || pd.empty (financials t)
  then (None, Some "No historical data available.")
  else match fst (collect t) with
       | [] => (None, Some "Could not calculate historical Z-Scores.")
       | historical_data => (Some (sort_values historical_data), None)
       end.

(** ** Vocabulary of the properties *)

(** The four components of the returned tuple. *)
Definition result_data (r : Result) : option FinancialData.t := fst (fst (fst r)).
Definition result_error (r : Result) : option string := snd (fst (fst r)).
Definition result_fields (r : Result) : gmap string (list string) := snd (fst r).
Definition result_diagnostics (r : Result) : Diagnostics := snd r.

(** The eight canonical quantities, in the order the resolver attempts them. *)
Inductive Quantity : Type :=
| Total_Assets | Total_Liabilities | Current_Assets | Current_Liabilities
| Retained_Earnings | EBIT | Sales | Market_Cap.

Definition all_quantities : list Quantity :=
  [Total_Assets; Total_Liabilities; Current_Assets; Current_Liabilities;
   Retained_Earnings; EBIT; Sales; Market_Cap].

(** The name a quantity has in the list of missing fields. *)
Definition display_name (q : Quantity) : string :=
  match q with
  | Total_Assets => "Total Assets"
  | Total_Liabilities => "Total Liabilities"
  | Current_Assets => "Current Assets"
  | Current_Liabilities => "Current Liabilities"
  | Retained_Earnings => "Retained Earnings"
  | EBIT => "EBIT"
  | Sales => "Sales"
  | Market_Cap => "Market Cap"
  end.

(** The key a quantity has in [field_values]. *)
Definition field_key (q : Quantity) : string :=
  match q with
  | Total_Assets => "total_assets"
  | Total_Liabilities => "total_liabilities"
  | Current_Assets => "current_assets"
  | Current_Liabilities => "current_liabilities"
  | Retained_Earnings => "retained_earnings"
  | EBIT => "ebit"
  | Sales => "sales"
  | Market_Cap => "market_cap"
  end.

(** The local variable that holds a quantity. *)
Definition quantity_value (r : Resolved) (q : Quantity) : option Q :=
  match q with
  | Total_Assets => total_assets r
  | Total_Liabilities => total_liabilities r
  | Current_Assets => current_assets r
  | Current_Liabilities => current_liabilities r
  | Retained_Earnings => retained_earnings r
  | EBIT => ebit r
  | Sales => sales r
  | Market_Cap => market_cap r
  end.

Definition is_None {A : Type} (x : option A) : bool :=
  match x with
  | None => true
  | Some _ => false
  end.

(** The quantities left unresolved, in attempt order. *)
Definition unresolved (r : Resolved) : list Quantity :=
  List.filter (fun q => is_None (quantity_value r q)) all_quantities.

(** Some listed spelling labels a row of a non-empty statement. *)
Definition listed (df : pd.DataFrame) (field_names : list string) : bool :=
  negb (pd.empty df) && existsb (fun f => pd.in_index f df) field_names.


(** An attempt's entry, if any, is not of kind "hardcoded". *)
Definition from_statements (r : option (Q * Entry)) : Prop :=
  forall v e, r = Some (v, e) -> snd e <> "hardcoded".


(** ** Sample statements *)

Fixpoint assoc {A : Type} (key : string) (l : list (string * A)) : option A :=
  match l with
  | [] => None
  | (k, v) :: rest => if String.eqb key k then Some v else assoc key rest
  end.

(** A frame from its period columns and its rows, each row a function of the
    period. *)
Definition frame_of (cols : list pd.Timestamp)
    (rows : list (string * (pd.Timestamp -> Q))) : pd.DataFrame :=
  {| pd.index := map fst rows;
     pd.columns := cols;
     pd.loc := fun field date =>
                 match assoc field rows with
                 | Some row => row date
                 | None => 0%Q
                 end |}.

Definition no_frame : pd.DataFrame := frame_of [] [].
Definition no_info : Info := {| numbers := ∅; texts := ∅ |}.
Definition const (q : Q) : pd.Timestamp -> Q := fun _ => q.

Definition fy2023 : pd.Timestamp := pd.mkTimestamp 2023 12 31.

(** An annual balance sheet with one period and no income statement at all. *)
Definition balance_only : Ticker :=
  {| balance_sheet := frame_of [fy2023] [("Total Assets", const 1000%Q)];
     financials := no_frame;
     quarterly_balance_sheet := no_frame;
     quarterly_financials := no_frame;
     info := no_info |}.

(** What the attempt for one quantity yields: the value with its entry. *)
Definition attempt (ticker_symbol : string) (t : Ticker)
    (bs_date fs_date : pd.Timestamp) (q : Quantity) : option (Q * Entry) :=
  match q with
  | Total_Assets => resolve_total_assets t bs_date
  | Total_Liabilities =>
      resolve_total_liabilities t bs_date (value (resolve_total_assets t bs_date))
  | Current_Assets => resolve_current_assets ticker_symbol t bs_date
  | Current_Liabilities => resolve_current_liabilities ticker_symbol t bs_date
  | Retained_Earnings => resolve_retained_earnings t bs_date
  | EBIT => resolve_ebit t fs_date
  | Sales => resolve_sales t fs_date
  | Market_Cap => resolve_market_cap t
  end.

(** Total assets and revenue only; everything else is absent. *)
Definition sparse : Ticker :=
  {| balance_sheet := frame_of [fy2023] [("Total Assets", const 1000%Q)];
     financials := frame_of [fy2023] [("Total Revenue", const 500%Q)];
     quarterly_balance_sheet := no_frame;
     quarterly_financials := no_frame;
     info := no_info |}.



(** Every quantity under its first spelling, in annual statements only. *)
Definition complete : Ticker :=
  {| balance_sheet :=
       frame_of [fy2023]
         [("Total Assets", const 1000%Q); ("Total Liab", const 400%Q);
          ("Total Current Assets", const 300%Q);
          ("Total Current Liabilities", const 100%Q);
          ("Retained Earnings", const 150%Q)];
     financials :=
       frame_of [fy2023] [("Ebit", const 120%Q); ("Total Revenue", const 500%Q)];
     quarterly_balance_sheet := no_frame;
     quarterly_financials := no_frame;
     info := {| numbers := {[ "marketCap" := Some 800%Q ]}; texts := ∅ |} |}.

(** Annual statements over the given period columns, with every field the
    series builder reads; current assets vary with the period's month. *)
Definition history (bs_cols fin_cols : list pd.Timestamp) : Ticker :=
  {| balance_sheet :=
       frame_of bs_cols
         [("Total Assets", const 1000%Q); ("Total Liab", const 400%Q);
          ("Total Current Assets", fun d => inject_Z (300 + 10 * pd.month d));
          ("Total Current Liabilities", const 100%Q);
          ("Retained Earnings", const 150%Q)];
     financials :=
       frame_of fin_cols [("Ebit", const 120%Q); ("Total Revenue", const 500%Q)];
     quarterly_balance_sheet := no_frame;
     quarterly_financials := no_frame;
     info := {| numbers := {[ "marketCap" := Some 800%Q ]}; texts := ∅ |} |}.

Definition dec_31_2020 : pd.Timestamp := pd.mkTimestamp 2020 12 31.
Definition jul_04_2020 : pd.Timestamp := pd.mkTimestamp 2020 7 4.
Definition jul_03_2020 : pd.Timestamp := pd.mkTimestamp 2020 7 3.
Definition jan_15_2020 : pd.Timestamp := pd.mkTimestamp 2020 1 15.
Definition dec_31_2019 : pd.Timestamp := pd.mkTimestamp 2019 12 31.
Definition dec_31_2022 : pd.Timestamp := pd.mkTimestamp 2022 12 31.

(** Two fiscal years, each with its own income statement. *)
Definition two_years : Ticker :=
  history [fy2023; dec_31_2022] [fy2023; dec_31_2022].
(** The only income statement is 180 days before the balance sheet. *)
Definition apart_180 : Ticker := history [dec_31_2020] [jul_04_2020].
(** The only income statement is 181 days before the balance sheet. *)
Definition apart_181 : Ticker := history [dec_31_2020] [jul_03_2020].
(** Two balance sheets dated in 2020; only the second has an income statement
    within reach. *)
Definition late_then_early : Ticker :=
  history [dec_31_2020; jan_15_2020] [dec_31_2019].

(** All seven rows and the market capitalisation the series builder reads. *)
Definition values_available (t : Ticker) : bool :=
  forallb (fun f => pd.in_index f (balance_sheet t))
    ["Total Assets"; "Total Liab"; "Total Current Assets";
     "Total Current Liabilities"; "Retained Earnings"]
  && forallb (fun f => pd.in_index f (financials t)) ["Ebit"; "Total Revenue"]
  && negb (is_None (dict_get (numbers (info t)) "marketCap")).

(** The period is dated in year [y] and yields a point. *)
Definition produces (t : Ticker) (y : Z) (d : pd.Timestamp) : bool :=
  (pd.year d =? y)%Z && negb (is_None (period_point t d)).

(** The first balance-sheet period of year [y] that yields a point. *)
Definition first_producing (t : Ticker) (y : Z) (cols : list pd.Timestamp)
    : option pd.Timestamp :=
  List.find (produces t y) cols.

(** What holds of the loop state once the balance-sheet periods [seen] are
    processed: the used years are the years of the points; no year twice;
    the points are those of the first yielding period of each year; no more
    points than periods. *)
Definition series_invariant (t : Ticker) (seen : list pd.Timestamp)
    (state : list HistoricalPoint * gset Z) : Prop :=
  (forall y, y ∈ snd state <-> In y (map date (fst state))) /\
  List.NoDup (map date (fst state)) /\
  (forall p, In p (fst state) <->
             exists d, first_producing t (date p) seen = Some d /\
                       period_point t d = Some p) /\
  (length (fst state) <= length seen)%nat.

(** ** The caller and the company search *)

(** The score computed by [main] from a fetched result (lines 785-795): the
    five ratios, the Z-Score and its interpretation. *)
Definition score (data : FinancialData.t) : Q * (string * string) :=
  let x1 := (FinancialData.working_capital data / FinancialData.total_assets data)%Q in
  let x2 := (FinancialData.retained_earnings data / FinancialData.total_assets data)%Q in
  let x3 := (FinancialData.ebit data / FinancialData.total_assets data)%Q in
  let x4 := (FinancialData.market_value_equity data
             / FinancialData.total_liabilities data)%Q in
  let x5 := (FinancialData.sales data / FinancialData.total_assets data)%Q in
  let z_score := calculate_z_score x1 x2 x3 x4 x5 in
  (z_score, interpret_z_score z_score).

(** *** Company search *)

(** [str.lower] on the ASCII letters.  On ASCII strings this is Python's
    [lower]; characters beyond ASCII, which Python maps by the Unicode tables,
    are left as they are, so what is stated about case below is stated for
    ASCII queries ([ascii_only]). *)
Definition lower_ascii (c : ascii) : ascii :=
  let n := nat_of_ascii c in
  if ((65 <=? n) && (n <=? 90))%nat then ascii_of_nat (n + 32) else c.

Fixpoint lower (s : string) : string :=
  match s with
  | EmptyString => EmptyString
  | String c rest => String (lower_ascii c) (lower rest)
  end.

(** Every character of the string is ASCII. *)
Definition ascii_only (s : string) : bool :=
  forallb (fun c => (nat_of_ascii c <? 128)%nat) (list_ascii_of_string s).

(** [needle in haystack] on strings. *)
Fixpoint contains (needle haystack : string) : bool :=
  String.prefix needle haystack
  || match haystack with
     | EmptyString => false
     | String _ rest => contains needle rest
     end.

(** One entry of the list of matches. *)
Record Company : Type := mkCompany {
  company_ticker : string;
  company_name : string;
  company_exchange : string
}.

(** [popular_tickers], in the order of the dictionary literal. *)
Definition popular_tickers : list (string * string) :=
  [ ("AAPL", "Apple Inc.");
    ("MSFT", "Microsoft Corporation");
    ("GOOGL", "Alphabet Inc.");
    ("AMZN", "Amazon.com, Inc.");
    ("META", "Meta Platforms, Inc.");
    ("TSLA", "Tesla, Inc.");
    ("NVDA", "NVIDIA Corporation");
    ("JPM", "JPMorgan Chase & Co.");
    ("WMT", "Walmart Inc.");
    ("JNJ", "Johnson & Johnson");
    ("V", "Visa Inc.");
    ("PG", "Procter & Gamble Co.");
    ("BAC", "Bank of America Corp.");
    ("HD", "Home Depot Inc.") ].

(** The direct ticker lookup.  [fetched] is what [yf.Ticker(query).info]
    gave: [None] when the call raised (the [except: pass]), else the info
    dictionary's text entries. *)
Definition direct_match (query : string) (fetched : option (gmap string string))
    : list Company :=
  if (1 <=? String.length query)%nat
  then match fetched with
       | Some info =>
           match info !! "longName" with
           | Some long_name =>
               [ {| company_ticker := upper query;
                    company_name := long_name;
                    company_exchange :=
                      match info !! "exchange" with
                      | Some e => e
                      | None => "Unknown"
                      end |} ]
           | None => []
           end
       | None => []
       end
  else [].

(** [query.lower() in ticker.lower() or query.lower() in name.lower()] *)
Definition query_matches (query : string) (entry : string * string) : bool :=
  contains (lower query) (lower (fst entry))
  || contains (lower query) (lower (snd entry)).

(** One round of the loop over [popular_tickers.items()]. *)
Definition add_popular (query : string) (matches : list Company)
    (entry : string * string) : list Company :=
  if query_matches query entry
  then if existsb (fun m => String.eqb (company_ticker m) (fst entry)) matches
       then matches
       else (matches ++ [ {| company_ticker := fst entry;
                             company_name := snd entry;
                             company_exchange := "Popular Stock" |} ])%list
  else matches.

(** [search_companies(query)] given the outcome of the one remote lookup. *)
Definition search_companies (query : string)
    (fetched : option (gmap string string)) : list Company :=
  fold_left (add_popular query) popular_tickers (direct_match query fetched).

(** The three categories from worst to best. *)
Definition risk_rank (category : string) : Z :=
  if String.eqb category "Low Risk" then 2%Z
  else if String.eqb category "Grey Zone" then 1%Z
  else 0%Z.

(** * Properties *)

(** ** Calculator and classifier *)

Lemma Qgt_bool_iff (a b : Q) : Qgt_bool a b = true <-> (b < a)%Q.
Proof.
  unfold Qgt_bool. rewrite negb_true_iff.
  split.
  - intros H. apply Qnot_le_lt. intros Hle.
    apply Qle_bool_iff in Hle. congruence.
  - intros H. destruct (Qle_bool a b) eqn:E; [|reflexivity].
    apply Qle_bool_iff in E. exfalso. revert E. apply Qlt_not_le, H.
Qed.

Lemma Qge_bool_iff (a b : Q) : Qge_bool a b = true <-> (b <= a)%Q.
Proof. unfold Qge_bool. apply Qle_bool_iff. Qed.

(** The category is decided by the two comparisons alone. *)
Lemma interpret_z_score_cases (z : Q) :
  ((2.99 < z)%Q /\ interpret_z_score z = ("Low Risk", Low_Risk_explanation)) \/
  ((1.81 <= z)%Q /\ (z <= 2.99)%Q /\
     interpret_z_score z = ("Grey Zone", Grey_Zone_explanation)) \/
  ((z < 1.81)%Q /\ interpret_z_score z = ("High Risk", High_Risk_explanation)).
Proof.
  unfold interpret_z_score.
  destruct (Qgt_bool z 2.99) eqn:Hhi.
  - left. split; [by apply Qgt_bool_iff | reflexivity].
  - assert (Hle : (z <= 2.99)%Q).
    { apply Qnot_lt_le. intros Hlt. apply Qgt_bool_iff in Hlt. congruence. }
    destruct (Qge_bool z 1.81) eqn:Hlo.
    + right; left. repeat split; [by apply Qge_bool_iff | exact Hle].
    + right; right. split; [|reflexivity].
      apply Qnot_le_lt. intros Hge. apply Qge_bool_iff in Hge. congruence.
Qed.

(** C1, as stated, fails: the calculator does not return the exact sum.  On
    the floats 0.1, 0.5, 0.3, 0, 0 it returns 1.8099999999999998, which is
    not the exact weighted sum of those five floats and reads as High Risk,
    while the exact weighted sum of the decimals 0.1, 0.5, 0.3, 0, 0 is 1.81,
    which reads as Grey Zone. *)
Lemma calculate_z_score_not_exact :
  Binary64.calculate_z_score 0.1 0.5 0.3 0 0 = 1.8099999999999998%float /\
  ~ (Binary64.to_Q (Binary64.calculate_z_score 0.1 0.5 0.3 0 0)
     == (6 # 5) * Binary64.to_Q 0.1 + (7 # 5) * Binary64.to_Q 0.5
        + (33 # 10) * Binary64.to_Q 0.3 + (3 # 5) * Binary64.to_Q 0
        + (999 # 1000) * Binary64.to_Q 0)%Q /\
  fst (Binary64.interpret_z_score (Binary64.calculate_z_score 0.1 0.5 0.3 0 0))
  = "High Risk" /\
  ((6 # 5) * 0.1 + (7 # 5) * 0.5 + (33 # 10) * 0.3 + (3 # 5) * 0
   + (999 # 1000) * 0 == 1.81)%Q /\
  fst (interpret_z_score 1.81) = "Grey Zone".
Proof.
  split; [vm_compute; reflexivity|].
  split; [by vm_compute|].
  split; [vm_compute; reflexivity|].
  split; reflexivity.
Qed.

(** C1, amended: for all five binary64 ratios the calculator returns the
    binary64 value of 1.2*x1 + 1.4*x2 + 3.3*x3 + 0.6*x4 + 0.999*x5 evaluated
    from left to right, every product and every sum being the correctly
    rounded binary64 operation on the weights' nearest binary64 values.  A
    ratio of 1 alone returns its weight and all zeros return 0; on x1=0.1,
    x2=0.2, x3=0.15, x4=1.0, x5=0.8 it returns 2.2942, which reads as Grey
    Zone; the grouping matters: on 0, 0, 0.1, 0.1, 0.2 it returns 0.5898 while
    the same terms added from the right give 0.5898000000000001. *)
Theorem calculate_z_score_binary64 :
  (forall x1 x2 x3 x4 x5 : float,
      Binary64.calculate_z_score x1 x2 x3 x4 x5
      = ((((1.2 * x1 + 1.4 * x2) + 3.3 * x3) + 0.6 * x4) + 0.999 * x5)%float) /\
  (forall x1 x2 x3 x4 x5 : float,
      Prim2SF (Binary64.calculate_z_score x1 x2 x3 x4 x5)
      = SF64add
          (SF64add
             (SF64add
                (SF64add (SF64mul (Prim2SF 1.2) (Prim2SF x1))
                         (SF64mul (Prim2SF 1.4) (Prim2SF x2)))
                (SF64mul (Prim2SF 3.3) (Prim2SF x3)))
             (SF64mul (Prim2SF 0.6) (Prim2SF x4)))
          (SF64mul (Prim2SF 0.999) (Prim2SF x5))) /\
  (Binary64.calculate_z_score 0 0 0 0 0 = 0%float /\
   Binary64.calculate_z_score 1 0 0 0 0 = 1.2%float /\
   Binary64.calculate_z_score 0 1 0 0 0 = 1.4%float /\
   Binary64.calculate_z_score 0 0 1 0 0 = 3.3%float /\
   Binary64.calculate_z_score 0 0 0 1 0 = 0.6%float /\
   Binary64.calculate_z_score 0 0 0 0 1 = 0.999%float) /\
  Binary64.calculate_z_score 0.1 0.2 0.15 1.0 0.8 = 2.2942%float /\
  fst (Binary64.interpret_z_score (Binary64.calculate_z_score 0.1 0.2 0.15 1.0 0.8))
  = "Grey Zone" /\
  (Binary64.calculate_z_score 0 0 0.1 0.1 0.2 = 0.5898%float /\
   (1.2 * 0 + (1.4 * 0 + (3.3 * 0.1 + (0.6 * 0.1 + 0.999 * 0.2))))%float
   = 0.5898000000000001%float).
Proof.
  split; [reflexivity|].
  split.
  { intros. unfold Binary64.calculate_z_score.
    by rewrite !add_spec, !mul_spec. }
  split; [repeat split; vm_compute; reflexivity|].
  split; [vm_compute; reflexivity|].
  split; [vm_compute; reflexivity|].
  split; vm_compute; reflexivity.
Qed.

Section Calculator.
Local Open Scope Q_scope.


End Calculator.

(** ** Statement dates *)

Lemma first_column_empty (df : pd.DataFrame) :
  pd.empty df = true -> first_column df = None.
Proof. unfold first_column. by intros ->. Qed.

Lemma first_column_nonempty (df : pd.DataFrame) :
  pd.empty df = false -> exists d, first_column df = Some d.
Proof.
  unfold first_column, pd.empty. intros H.
  destruct (pd.index df); [discriminate|].
  destruct (pd.columns df) as [|d cols]; [discriminate|].
  by exists d.
Qed.

Lemma first_column_None (df : pd.DataFrame) :
  first_column df = None <-> pd.empty df = true.
Proof.
  split; [|apply first_column_empty].
  destruct (pd.empty df) eqn:E; [done|].
  destruct (first_column_nonempty df E) as [d ->]. discriminate.
Qed.

Lemma add_date_eq key df (dates : gmap string pd.Timestamp) :
  dates !! key = None -> add_date key df dates !! key = first_column df.
Proof.
  unfold add_date. intros H.
  destruct (first_column df); [by rewrite lookup_insert_eq | done].
Qed.

Lemma add_date_ne key key' df (dates : gmap string pd.Timestamp) :
  key <> key' -> add_date key df dates !! key' = dates !! key'.
Proof.
  unfold add_date. intros H.
  destruct (first_column df); [by rewrite lookup_insert_ne | done].
Qed.

Ltac dates_lookup :=
  unfold statement_dates;
  repeat (rewrite add_date_ne by done);
  rewrite add_date_eq; [reflexivity|];
  repeat (rewrite add_date_ne by done);
  apply lookup_empty.

Lemma dates_bs t : statement_dates t !! "bs" = first_column (balance_sheet t).
Proof. dates_lookup. Qed.
Lemma dates_fs t : statement_dates t !! "fs" = first_column (financials t).
Proof. dates_lookup. Qed.
Lemma dates_qbs t :
  statement_dates t !! "qbs" = first_column (quarterly_balance_sheet t).
Proof. dates_lookup. Qed.
Lemma dates_qfs t :
  statement_dates t !! "qfs" = first_column (quarterly_financials t).
Proof. dates_lookup. Qed.

Lemma latest_bs_date_None t :
  latest_bs_date t = None <->
  pd.empty (balance_sheet t) && pd.empty (quarterly_balance_sheet t) = true.
Proof.
  unfold latest_bs_date. rewrite dates_bs, dates_qbs, andb_true_iff.
  rewrite <- !first_column_None.
  destruct (first_column (balance_sheet t)); [|tauto].
  split; [discriminate | intros [? _]; discriminate].
Qed.

Lemma latest_fs_date_None t :
  latest_fs_date t = None <->
  pd.empty (financials t) && pd.empty (quarterly_financials t) = true.
Proof.
  unfold latest_fs_date. rewrite dates_fs, dates_qfs, andb_true_iff.
  rewrite <- !first_column_None.
  destruct (first_column (financials t)); [|tauto].
  split; [discriminate | intros [? _]; discriminate].
Qed.

(** ** The early return *)

Lemma missing_error_not_no_data missing : missing_error missing <> no_data_error.
Proof. unfold missing_error, no_data_error. simpl. discriminate. Qed.

(** Past the date check the fourth component is [field_values] and the error
    is never the "no data" one. *)
Lemma get_financial_data_lookup_phase ticker_symbol t bs_date fs_date :
  latest_bs_date t = Some bs_date ->
  latest_fs_date t = Some fs_date ->
  result_error (get_financial_data ticker_symbol t) <> Some no_data_error /\
  result_diagnostics (get_financial_data ticker_symbol t)
  = Field_values (field_values (resolve ticker_symbol t bs_date fs_date)).
Proof.
  intros Hbs Hfs. unfold get_financial_data. rewrite Hbs, Hfs.
  destruct (missing_fields _) as [|name missing] eqn:E.
  - split; [discriminate | reflexivity].
  - split; [|reflexivity]. unfold result_error. cbn [fst snd].
    intros H. apply (missing_error_not_no_data (name :: missing)). congruence.
Qed.

(** C3, as stated, fails: a balance-sheet period exists, yet resolution ends
    with the "no data" error because no income statement has one. *)
Lemma no_data_error_with_balance_sheet_period :
  pd.columns (balance_sheet balance_only) = [fy2023] /\
  pd.empty (balance_sheet balance_only) = false /\
  get_financial_data "XYZ" balance_only
  = (None, Some no_data_error, statement_fields balance_only,
     Debug_info (statement_debug_info balance_only)).
Proof.
  split; [reflexivity|]. split; [reflexivity|].
  unfold get_financial_data.
  assert (E : latest_fs_date balance_only = None)
    by (by apply latest_fs_date_None).
  rewrite E. by destruct (latest_bs_date balance_only).
Qed.

(** C3, amended: the "no data" error is returned exactly when both balance
    sheets are empty or both income statements are empty; it is then the
    whole result, built from the emptiness flags and row labels alone.  In
    every other case resolution runs the field lookups at the two primary
    dates and returns their [field_values]. *)
Theorem no_data_error_iff (ticker_symbol : string) (t : Ticker) :
  (result_error (get_financial_data ticker_symbol t) = Some no_data_error <->
   pd.empty (balance_sheet t) && pd.empty (quarterly_balance_sheet t)
   || pd.empty (financials t) && pd.empty (quarterly_financials t) = true) /\
  (result_error (get_financial_data ticker_symbol t) = Some no_data_error ->
   get_financial_data ticker_symbol t
   = (None, Some no_data_error, statement_fields t,
      Debug_info (statement_debug_info t))) /\
  (result_error (get_financial_data ticker_symbol t) <> Some no_data_error ->
   exists bs_date fs_date,
     latest_bs_date t = Some bs_date /\
     latest_fs_date t = Some fs_date /\
     result_diagnostics (get_financial_data ticker_symbol t)
     = Field_values (field_values (resolve ticker_symbol t bs_date fs_date))).
Proof.
  assert (Hcase :
    (latest_bs_date t = None \/ latest_fs_date t = None) \/
    exists bs_date fs_date,
      latest_bs_date t = Some bs_date /\ latest_fs_date t = Some fs_date).
  { destruct (latest_bs_date t) as [b|]; [|by left; left].
    destruct (latest_fs_date t) as [f|]; [|by left; right].
    right. by exists b, f. }
  assert (Hnone : latest_bs_date t = None \/ latest_fs_date t = None ->
    get_financial_data ticker_symbol t
    = (None, Some no_data_error, statement_fields t,
       Debug_info (statement_debug_info t))).
  { unfold get_financial_data. intros [-> | ->]; [done|].
    by destruct (latest_bs_date t). }
  rewrite orb_true_iff, <- latest_bs_date_None, <- latest_fs_date_None.
  destruct Hcase as [Hno | (b & f & Hb & Hf)].
  - rewrite (Hnone Hno). split; [|split]; [done | done |].
    intros H. by destruct H.
  - destruct (get_financial_data_lookup_phase ticker_symbol t b f Hb Hf)
      as [Herr Hdiag].
    split; [|split].
    + split; [done|]. rewrite Hb, Hf. by intros [|].
    + done.
    + intros _. by exists b, f.
Qed.

(** ** Missing fields and provenance *)

Lemma note_lookup_eq key r (fv : gmap string Entry) :
  note key r fv !! key = match r with Some (_, e) => Some e | None => fv !! key end.
Proof. unfold note. destruct r as [[v e]|]; [apply lookup_insert_eq | done]. Qed.

Lemma note_lookup_ne key key' r (fv : gmap string Entry) :
  key <> key' -> note key r fv !! key' = fv !! key'.
Proof.
  unfold note. intros H. destruct r as [[v e]|]; [by apply lookup_insert_ne | done].
Qed.

Lemma resolve_value ticker_symbol t bs_date fs_date q :
  quantity_value (resolve ticker_symbol t bs_date fs_date) q
  = value (attempt ticker_symbol t bs_date fs_date q).
Proof. by destruct q. Qed.

(** Each quantity's entry in [field_values] is the one its attempt made, and
    there is none when the attempt failed. *)
Lemma resolve_entry ticker_symbol t bs_date fs_date q :
  field_values (resolve ticker_symbol t bs_date fs_date) !! field_key q
  = match attempt ticker_symbol t bs_date fs_date q with
    | Some (_, e) => Some e
    | None => None
    end.
Proof.
  destruct q; unfold resolve; cbn [field_values field_key attempt];
    repeat (rewrite note_lookup_ne by done);
    rewrite note_lookup_eq;
    match goal with |- match ?r with _ => _ end = _ => destruct r as [[? ?]|] end;
    try reflexivity;
    repeat (rewrite note_lookup_ne by done);
    apply lookup_empty.
Qed.

(** The appended names are the display names of the unresolved quantities. *)
Lemma missing_fields_unresolved (r : Resolved) :
  missing_fields r = map display_name (unresolved r).
Proof.
  destruct r as [ta tl ca cl re eb sa mc wc fv].
  unfold missing_fields, unresolved. cbn.
  destruct ta, tl, ca, cl, re, eb, sa, mc; reflexivity.
Qed.

Lemma unresolved_spec (r : Resolved) (q : Quantity) :
  In q (unresolved r) <-> quantity_value r q = None.
Proof.
  unfold unresolved. rewrite filter_In. split.
  - intros [_ H]. by destruct (quantity_value r q).
  - intros ->. split; [|done]. destruct q; cbn; tauto.
Qed.

(** C5: when the lookup phase leaves a quantity unresolved, the result is a
    failure (no financial data) whose error lists the display names of exactly
    the unresolved quantities, and whose [field_values] holds, for every
    quantity that did resolve, the entry its attempt recorded. *)
Theorem missing_fields_reported ticker_symbol t bs_date fs_date :
  latest_bs_date t = Some bs_date ->
  latest_fs_date t = Some fs_date ->
  (exists q, quantity_value (resolve ticker_symbol t bs_date fs_date) q = None) ->
  get_financial_data ticker_symbol t
  = (None,
     Some ("Missing required financial data: "
           ++ String.concat ", "
                (map display_name
                   (unresolved (resolve ticker_symbol t bs_date fs_date)))),
     statement_fields t,
     Field_values (field_values (resolve ticker_symbol t bs_date fs_date))) /\
  (forall q, In q (unresolved (resolve ticker_symbol t bs_date fs_date)) <->
             quantity_value (resolve ticker_symbol t bs_date fs_date) q = None) /\
  (forall q v,
      quantity_value (resolve ticker_symbol t bs_date fs_date) q = Some v ->
      exists e,
        attempt ticker_symbol t bs_date fs_date q = Some (v, e) /\
        field_values (resolve ticker_symbol t bs_date fs_date) !! field_key q
        = Some e).
Proof.
  intros Hbs Hfs [q0 Hq0].
  split; [|split].
  - unfold get_financial_data. rewrite Hbs, Hfs.
    rewrite missing_fields_unresolved.
    apply unresolved_spec in Hq0.
    destruct (unresolved _) as [|q qs]; [destruct Hq0|].
    reflexivity.
  - intros q. apply unresolved_spec.
  - intros q v Hv. rewrite resolve_value in Hv. rewrite resolve_entry.
    destruct (attempt ticker_symbol t bs_date fs_date q) as [[v' e]|];
      [|discriminate].
    injection Hv as ->. by exists e.
Qed.

Lemma missing_fields_reported_witness :
  get_financial_data "XYZ" sparse
  = (None,
     Some ("Missing required financial data: "
           ++ String.concat ", "
                (map display_name (unresolved (resolve "XYZ" sparse fy2023 fy2023)))),
     statement_fields sparse,
     Field_values (field_values (resolve "XYZ" sparse fy2023 fy2023))) /\
  (forall q, In q (unresolved (resolve "XYZ" sparse fy2023 fy2023)) <->
             quantity_value (resolve "XYZ" sparse fy2023 fy2023) q = None) /\
  (forall q v,
      quantity_value (resolve "XYZ" sparse fy2023 fy2023) q = Some v ->
      exists e,
        attempt "XYZ" sparse fy2023 fy2023 q = Some (v, e) /\
        field_values (resolve "XYZ" sparse fy2023 fy2023) !! field_key q = Some e).
Proof.
  apply (missing_fields_reported "XYZ" sparse fy2023 fy2023).
  - vm_compute. reflexivity.
  - vm_compute. reflexivity.
  - exists Total_Liabilities. vm_compute. reflexivity.
Defined.

(** On the sample the error names six quantities and the two resolved ones
    keep their entries. *)
Example sparse_result :
  result_error (get_financial_data "XYZ" sparse)
  = Some "Missing required financial data: Total Liabilities, Current Assets, Current Liabilities, Retained Earnings, EBIT, Market Cap" /\
  field_values (resolve "XYZ" sparse fy2023 fy2023) !! "total_assets"
  = Some (Text "Total Assets", At fy2023, "balance_sheet") /\
  field_values (resolve "XYZ" sparse fy2023 fy2023) !! "sales"
  = Some (Text "Total Revenue", At fy2023, "financials").
Proof. repeat split; vm_compute; reflexivity. Qed.

(** ** Component sums *)

Lemma first_in_index_listed source field_names :
  is_Some (first_in_index source field_names) <->
  existsb (fun f => pd.in_index f source) field_names = true.
Proof.
  induction field_names as [|f fs IH]; simpl.
  - split; [intros [? ?]; discriminate | discriminate].
  - destruct (pd.in_index f source); simpl; [|exact IH].
    split; [done | by eexists].
Qed.

Lemma first_in_index_sound source field_names field :
  first_in_index source field_names = Some field ->
  In field field_names /\ pd.in_index field source = true.
Proof.
  induction field_names as [|f fs IH]; simpl; [discriminate|].
  destruct (pd.in_index f source) eqn:E.
  - intros [= <-]. auto.
  - intros H. destruct (IH H). auto.
Qed.






Lemma find_field_sound source date field_names f d v :
  find_field source date field_names = Some (f, d, v) ->
  date = Some d /\ pd.empty source = false /\ In f field_names /\
  pd.in_index f source = true /\ v = pd.loc source f d.
Proof.
  unfold find_field.
  destruct (pd.empty source); [discriminate|].
  destruct date as [d'|]; [|discriminate].
  destruct (first_in_index source field_names) as [f'|] eqn:E; [|discriminate].
  intros [= <- <- <-]. destruct (first_in_index_sound _ _ _ E). auto.
Qed.

(** Every gathered value is the cell of a listed spelling: in the annual
    balance sheet at the primary date, or in the quarterly one at its first
    period. *)
Lemma gather_components_sound t bs_date table c f v :
  In (c, f, v) (gather_components t bs_date table) ->
  exists field_names,
    In (c, field_names) table /\ In f field_names /\
    ((pd.empty (balance_sheet t) = false /\
      pd.in_index f (balance_sheet t) = true /\
      v = pd.loc (balance_sheet t) f bs_date) \/
     (exists d, first_column (quarterly_balance_sheet t) = Some d /\
                pd.in_index f (quarterly_balance_sheet t) = true /\
                v = pd.loc (quarterly_balance_sheet t) f d)).
Proof.
  induction table as [|[c' names] rest IH]; [intros []|].
  cbn [gather_components].
  assert (Hrest : In (c, f, v) (gather_components t bs_date rest) ->
    exists field_names, In (c, field_names) ((c', names) :: rest) /\
      In f field_names /\
      ((pd.empty (balance_sheet t) = false /\
        pd.in_index f (balance_sheet t) = true /\
        v = pd.loc (balance_sheet t) f bs_date) \/
       (exists d, first_column (quarterly_balance_sheet t) = Some d /\
                  pd.in_index f (quarterly_balance_sheet t) = true /\
                  v = pd.loc (quarterly_balance_sheet t) f d))).
  { intros H. destruct (IH H) as (ns & Hin & Hrest). exists ns.
    split; [by right | exact Hrest]. }
  destruct (find_first (bs_attempts t bs_date names)) as [[[f' d'] v']|] eqn:E;
    [|exact Hrest].
  intros [[= <- <- <-] | H]; [|by apply Hrest].
  exists names. split; [by left|].
  unfold bs_attempts in E. cbn [find_first] in E.
  destruct (find_field (balance_sheet t) _ _) as [h|] eqn:E1.
  - injection E as ->. apply find_field_sound in E1.
    destruct E1 as ([= <-] & ? & ? & ? & ?). split; [done|]. by left.
  - destruct (find_field (quarterly_balance_sheet t) _ _) as [h|] eqn:E2;
      [|discriminate].
    injection E as ->. apply find_field_sound in E2.
    destruct E2 as (Hd & ? & ? & ? & ?). rewrite dates_qbs in Hd.
    split; [done|]. right. by exists d'.
Qed.





(** ** The manual override *)

Lemma direct_from_statements attempts source_name :
  source_name <> "hardcoded" -> from_statements (direct attempts source_name).
Proof.
  intros Hne v e. unfold direct.
  destruct (find_first attempts) as [[[f d] x]|]; [|discriminate].
  by intros [= <- <-].
Qed.

Lemma resolve_total_liabilities_from_statements t bs_date ta :
  from_statements (resolve_total_liabilities t bs_date ta).
Proof.
  unfold resolve_total_liabilities. intros v e.
  destruct (direct _ _) as [r|] eqn:E.
  - intros [= ->]. revert E. by apply direct_from_statements.
  - destruct ta; [|discriminate].
    destruct (find_first _) as [[[f d] x]|]; [|discriminate].
    by intros [= <- <-].
Qed.

Lemma lookup_current_assets_from_statements t bs_date :
  from_statements (lookup_current_assets t bs_date).
Proof.
  unfold lookup_current_assets. intros v e.
  destruct (direct _ _) as [r|] eqn:E.
  - intros [= ->]. revert E. by apply direct_from_statements.
  - unfold current_assets_from_components.
    destruct (_ && _); [|discriminate]. by intros [= <- <-].
Qed.

Lemma lookup_current_liabilities_from_statements t bs_date :
  from_statements (lookup_current_liabilities t bs_date).
Proof.
  unfold lookup_current_liabilities. intros v e.
  destruct (direct _ _) as [r|] eqn:E.
  - intros [= ->]. revert E. by apply direct_from_statements.
  - unfold current_liabilities_from_components.
    destruct (_ <=? _)%nat; [|discriminate]. by intros [= <- <-].
Qed.

Lemma derive_retained_earnings_from_statements sources equity common_stock :
  from_statements (derive_retained_earnings sources equity common_stock).
Proof.
  revert equity common_stock.
  induction sources as [|[source date] rest IH]; intros equity common_stock v e;
    cbn [derive_retained_earnings]; [discriminate|].
  destruct (pd.empty source); [apply IH|].
  destruct date as [d|]; [|apply IH].
  destruct (pick source d _ equity) as [x|]; [|apply IH].
  destruct (pick source d _ common_stock) as [y|]; [|apply IH].
  by intros [= <- <-].
Qed.

Lemma derive_ebit_from_statements sources net_income interest_expense income_tax :
  from_statements (derive_ebit sources net_income interest_expense income_tax).
Proof.
  revert net_income interest_expense income_tax.
  induction sources as [|[source date] rest IH];
    intros net_income interest_expense income_tax v e;
    cbn [derive_ebit]; [discriminate|].
  destruct (pd.empty source); [apply IH|].
  destruct date as [d|]; [|apply IH].
  destruct (pick source d _ net_income) as [x|]; [|apply IH].
  destruct (pick source d _ interest_expense) as [y|]; [|apply IH].
  destruct (pick source d _ income_tax) as [z|]; [|apply IH].
  by intros [= <- <-].
Qed.

Lemma resolve_retained_earnings_from_statements t bs_date :
  from_statements (resolve_retained_earnings t bs_date).
Proof.
  unfold resolve_retained_earnings. intros v e.
  destruct (direct _ _) as [r|] eqn:E.
  - intros [= ->]. revert E. by apply direct_from_statements.
  - apply derive_retained_earnings_from_statements.
Qed.

Lemma resolve_ebit_from_statements t fs_date :
  from_statements (resolve_ebit t fs_date).
Proof.
  unfold resolve_ebit. intros v e.
  destruct (direct _ _) as [r|] eqn:E.
  - intros [= ->]. revert E. by apply direct_from_statements.
  - apply derive_ebit_from_statements.
Qed.

Lemma resolve_market_cap_from_statements t :
  from_statements (resolve_market_cap t).
Proof.
  unfold resolve_market_cap. intros v e.
  destruct (dict_get (numbers (info t)) "marketCap"); [by intros [= <- <-]|].
  destruct (dict_get_default (numbers (info t)) "regularMarketPrice" _);
    [|discriminate].
  destruct (dict_get (numbers (info t)) "sharesOutstanding"); [|discriminate].
  by intros [= <- <-].
Qed.

Lemma resolve_working_capital_from_statements ca cl :
  from_statements (resolve_working_capital ca cl).
Proof.
  unfold resolve_working_capital. intros v e.
  destruct ca, cl; try discriminate. by intros [= <- <-].
Qed.

Lemma note_from_statements key r (fv : gmap string Entry) :
  from_statements r ->
  (forall k e, fv !! k = Some e -> snd e <> "hardcoded") ->
  forall k e, note key r fv !! k = Some e -> snd e <> "hardcoded".
Proof.
  intros Hr Hfv k e. unfold note.
  destruct r as [[v e']|]; [|apply Hfv].
  destruct (decide (key = k)) as [->|Hne].
  - rewrite lookup_insert_eq. intros [= <-]. by apply (Hr v).
  - rewrite lookup_insert_ne by done. apply Hfv.
Qed.

Lemma resolve_from_statements ticker_symbol t bs_date fs_date :
  upper ticker_symbol <> "AAPL" ->
  forall k e,
    field_values (resolve ticker_symbol t bs_date fs_date) !! k = Some e ->
    snd e <> "hardcoded".
Proof.
  intros Hne. unfold resolve. cbn [field_values].
  unfold resolve_current_assets, resolve_current_liabilities.
  apply String.eqb_neq in Hne. rewrite Hne.
  repeat (apply note_from_statements;
          [first [ by apply direct_from_statements
                 | apply resolve_total_liabilities_from_statements
                 | apply lookup_current_assets_from_statements
                 | apply lookup_current_liabilities_from_statements
                 | apply resolve_retained_earnings_from_statements
                 | apply resolve_ebit_from_statements
                 | apply resolve_market_cap_from_statements
                 | apply resolve_working_capital_from_statements ] |]).
  intros k e. by rewrite lookup_empty.
Qed.

(** When nothing is missing the result dictionary holds the resolved values. *)
Lemma financial_data_fields ticker_symbol t bs_date r fd :
  financial_data ticker_symbol t bs_date r = Some fd ->
  current_assets r = Some (FinancialData.current_assets fd) /\
  current_liabilities r = Some (FinancialData.current_liabilities fd) /\
  FinancialData.field_sources fd = field_values r.
Proof.
  unfold financial_data.
  destruct (total_assets r), (total_liabilities r), (current_assets r),
    (current_liabilities r), (working_capital r), (retained_earnings r),
    (ebit r), (sales r), (market_cap r); try discriminate.
  by intros [= <-].
Qed.

Lemma get_financial_data_success ticker_symbol t bs_date fs_date fd :
  latest_bs_date t = Some bs_date ->
  latest_fs_date t = Some fs_date ->
  result_data (get_financial_data ticker_symbol t) = Some fd ->
  financial_data ticker_symbol t bs_date
    (resolve ticker_symbol t bs_date fs_date) = Some fd.
Proof.
  intros Hbs Hfs. unfold get_financial_data. rewrite Hbs, Hfs.
  destruct (missing_fields _); [done | discriminate].
Qed.

(** C9: for a ticker symbol that upper-cases to AAPL, whatever the statements
    hold, the lookup phase sets current assets to 143600000000 and current
    liabilities to 125600000000, each with the entry
    (Manual override, latest, hardcoded), and a successful result carries
    them; for any other symbol both quantities come from the statement
    lookups and no entry is of kind "hardcoded".  The samples show the
    override winning over directly listed fields. *)
Theorem aapl_manual_override :
  (forall ticker_symbol t bs_date fs_date,
      upper ticker_symbol = "AAPL" ->
      current_assets (resolve ticker_symbol t bs_date fs_date)
      = Some 143600000000%Q /\
      current_liabilities (resolve ticker_symbol t bs_date fs_date)
      = Some 125600000000%Q /\
      field_values (resolve ticker_symbol t bs_date fs_date) !! "current_assets"
      = Some (Text "Manual override", Label "latest", "hardcoded") /\
      field_values (resolve ticker_symbol t bs_date fs_date) !! "current_liabilities"
      = Some (Text "Manual override", Label "latest", "hardcoded")) /\
  (forall ticker_symbol t bs_date fs_date fd,
      upper ticker_symbol = "AAPL" ->
      latest_bs_date t = Some bs_date ->
      latest_fs_date t = Some fs_date ->
      result_data (get_financial_data ticker_symbol t) = Some fd ->
      FinancialData.current_assets fd = 143600000000%Q /\
      FinancialData.current_liabilities fd = 125600000000%Q /\
      FinancialData.field_sources fd !! "current_assets"
      = Some (Text "Manual override", Label "latest", "hardcoded") /\
      FinancialData.field_sources fd !! "current_liabilities"
      = Some (Text "Manual override", Label "latest", "hardcoded")) /\
  (forall ticker_symbol t bs_date fs_date,
      upper ticker_symbol <> "AAPL" ->
      attempt ticker_symbol t bs_date fs_date Current_Assets
      = lookup_current_assets t bs_date /\
      attempt ticker_symbol t bs_date fs_date Current_Liabilities
      = lookup_current_liabilities t bs_date /\
      forall k e,
        field_values (resolve ticker_symbol t bs_date fs_date) !! k = Some e ->
        snd e <> "hardcoded") /\
  (upper "aapl" = "AAPL" /\ upper "Aapl" = "AAPL" /\ upper "AAPL" = "AAPL") /\
  (pd.in_index "Total Current Assets" (balance_sheet complete) = true /\
   pd.in_index "Total Current Liabilities" (balance_sheet complete) = true /\
   (FinancialData.current_assets <$> result_data (get_financial_data "aapl" complete))
   = Some 143600000000%Q /\
   (FinancialData.current_liabilities <$> result_data (get_financial_data "aapl" complete))
   = Some 125600000000%Q /\
   (FinancialData.current_assets <$> result_data (get_financial_data "MSFT" complete))
   = Some 300%Q /\
   (FinancialData.current_liabilities <$> result_data (get_financial_data "MSFT" complete))
   = Some 100%Q).
Proof.
  assert (Hres : forall ticker_symbol t bs_date fs_date,
      upper ticker_symbol = "AAPL" ->
      current_assets (resolve ticker_symbol t bs_date fs_date)
      = Some 143600000000%Q /\
      current_liabilities (resolve ticker_symbol t bs_date fs_date)
      = Some 125600000000%Q /\
      field_values (resolve ticker_symbol t bs_date fs_date) !! "current_assets"
      = Some (Text "Manual override", Label "latest", "hardcoded") /\
      field_values (resolve ticker_symbol t bs_date fs_date) !! "current_liabilities"
      = Some (Text "Manual override", Label "latest", "hardcoded")).
  { intros ticker_symbol t bs_date fs_date Hup.
    pose proof (resolve_entry ticker_symbol t bs_date fs_date Current_Assets) as Ha.
    pose proof (resolve_entry ticker_symbol t bs_date fs_date Current_Liabilities) as Hl.
    cbn [field_key attempt] in Ha, Hl.
    unfold resolve_current_assets in Ha. unfold resolve_current_liabilities in Hl.
    rewrite Hup in Ha, Hl. cbn [String.eqb] in Ha, Hl.
    split; [|split; [|split]]; [| | exact Ha | exact Hl].
    - unfold resolve. cbn [current_assets]. unfold resolve_current_assets.
      by rewrite Hup.
    - unfold resolve. cbn [current_liabilities]. unfold resolve_current_liabilities.
      by rewrite Hup. }
  split; [exact Hres|]. split; [|split; [|split]].
  - intros ticker_symbol t bs_date fs_date fd Hup Hbs Hfs Hfd.
    apply (get_financial_data_success _ _ _ _ _ Hbs Hfs) in Hfd.
    apply financial_data_fields in Hfd. destruct Hfd as (Ha & Hl & ->).
    destruct (Hres ticker_symbol t bs_date fs_date Hup) as (Ha' & Hl' & Ea & El).
    rewrite Ha' in Ha. rewrite Hl' in Hl.
    injection Ha as <-. injection Hl as <-. auto.
  - intros ticker_symbol t bs_date fs_date Hne.
    split; [|split]; [| | by apply resolve_from_statements].
    + cbn [attempt]. unfold resolve_current_assets.
      apply String.eqb_neq in Hne. by rewrite Hne.
    + cbn [attempt]. unfold resolve_current_liabilities.
      apply String.eqb_neq in Hne. by rewrite Hne.
  - repeat split; reflexivity.
  - repeat split; vm_compute; reflexivity.
Qed.

(** ** Pairing a balance sheet with an income statement *)

(** What the search loop returns: a distance no larger than the start value
    and than every candidate's, and either the start pair or a candidate at
    that distance. *)
Lemma closest_spec bs_date is_dates closest_date closest_diff cd diff :
  closest bs_date is_dates closest_date closest_diff = (cd, diff) ->
  (diff <= closest_diff)%Z /\
  (forall d, In d is_dates -> (diff <= pd.abs_diff_days bs_date d)%Z) /\
  ((cd = closest_date /\ diff = closest_diff) \/
   (exists d, cd = Some d /\ In d is_dates /\ diff = pd.abs_diff_days bs_date d)).
Proof.
  revert closest_date closest_diff.
  induction is_dates as [|is_date rest IH]; intros closest_date closest_diff;
    cbn [closest].
  - intros [= <- <-]. split; [lia|]. split; [intros d []|]. by left.
  - destruct (pd.abs_diff_days bs_date is_date <? closest_diff)%Z eqn:E; intros H;
      apply IH in H; destruct H as (Hle & Hmin & Hwho).
    + apply Z.ltb_lt in E. split; [lia|]. split.
      * intros d [<- | Hd]; [exact Hle | by apply Hmin].
      * right. destruct Hwho as [[-> ->] | (d & -> & Hd & ->)].
        -- exists is_date. split; [done|]. split; [by left | done].
        -- exists d. split; [done|]. split; [by right | done].
    + apply Z.ltb_ge in E. split; [lia|]. split.
      * intros d [<- | Hd]; [lia | by apply Hmin].
      * destruct Hwho as [? | (d & -> & Hd & ->)]; [by left|].
        right. exists d. split; [done|]. split; [by right | done].
Qed.

Lemma closest_Some bs_date is_dates d diff :
  closest bs_date is_dates None 365 = (Some d, diff) ->
  In d is_dates /\ diff = pd.abs_diff_days bs_date d /\
  forall d', In d' is_dates ->
             (pd.abs_diff_days bs_date d <= pd.abs_diff_days bs_date d')%Z.
Proof.
  intros H. apply closest_spec in H. destruct H as (_ & Hmin & Hwho).
  destruct Hwho as [[? _] | (d' & [= <-] & Hd & ->)]; [discriminate|].
  auto.
Qed.

Lemma closest_None bs_date is_dates diff :
  closest bs_date is_dates None 365 = (None, diff) ->
  forall d, In d is_dates -> (365 <= pd.abs_diff_days bs_date d)%Z.
Proof.
  intros H. apply closest_spec in H. destruct H as (_ & Hmin & Hwho).
  destruct Hwho as [[_ ->] | (d' & ? & _)]; [exact Hmin | discriminate].
Qed.

(** The distance rule on its own: some income statement lies within 180
    days. *)
Lemma distance_rule t bs_date :
  (exists cd diff,
      closest bs_date (pd.columns (financials t)) None 365 = (Some cd, diff) /\
      (180 <? diff)%Z = false) <->
  (exists d, In d (pd.columns (financials t)) /\
             (pd.abs_diff_days bs_date d <= 180)%Z).
Proof.
  split.
  - intros (cd & diff & H & Hle). apply Z.ltb_ge in Hle.
    apply closest_Some in H. destruct H as (Hin & -> & _). by exists cd.
  - intros (d & Hin & Hle).
    destruct (closest bs_date (pd.columns (financials t)) None 365)
      as [[cd|] diff] eqn:E.
    + exists cd, diff. split; [done|]. apply Z.ltb_ge.
      apply closest_Some in E. destruct E as (_ & -> & Hmin).
      specialize (Hmin d Hin). lia.
    + pose proof (closest_None _ _ _ E d Hin). lia.
Qed.

Lemma values_available_cells t bs_date closest_date :
  values_available t = true ->
  cell (balance_sheet t) "Total Assets" bs_date
  = Some (pd.loc (balance_sheet t) "Total Assets" bs_date) /\
  cell (balance_sheet t) "Total Liab" bs_date
  = Some (pd.loc (balance_sheet t) "Total Liab" bs_date) /\
  cell (balance_sheet t) "Total Current Assets" bs_date
  = Some (pd.loc (balance_sheet t) "Total Current Assets" bs_date) /\
  cell (balance_sheet t) "Total Current Liabilities" bs_date
  = Some (pd.loc (balance_sheet t) "Total Current Liabilities" bs_date) /\
  cell (balance_sheet t) "Retained Earnings" bs_date
  = Some (pd.loc (balance_sheet t) "Retained Earnings" bs_date) /\
  cell (financials t) "Ebit" closest_date
  = Some (pd.loc (financials t) "Ebit" closest_date) /\
  cell (financials t) "Total Revenue" closest_date
  = Some (pd.loc (financials t) "Total Revenue" closest_date) /\
  is_Some (dict_get (numbers (info t)) "marketCap").
Proof.
  unfold values_available, cell. cbn [forallb].
  rewrite !andb_true_iff.
  intros [[(-> & -> & -> & -> & -> & _) (-> & -> & _)] Hmc].
  repeat split. destruct (dict_get (numbers (info t)) "marketCap"); [by eexists | done].
Qed.

Lemma cells_values_available t bs_date closest_date :
  is_Some (cell (balance_sheet t) "Total Assets" bs_date) ->
  is_Some (cell (balance_sheet t) "Total Liab" bs_date) ->
  is_Some (cell (balance_sheet t) "Total Current Assets" bs_date) ->
  is_Some (cell (balance_sheet t) "Total Current Liabilities" bs_date) ->
  is_Some (cell (balance_sheet t) "Retained Earnings" bs_date) ->
  is_Some (cell (financials t) "Ebit" closest_date) ->
  is_Some (cell (financials t) "Total Revenue" closest_date) ->
  is_Some (dict_get (numbers (info t)) "marketCap") ->
  values_available t = true.
Proof.
  unfold values_available, cell. cbn [forallb].
  intros H1 H2 H3 H4 H5 H6 H7 [mc ->].
  repeat match goal with
         | H : is_Some (if ?b then _ else _) |- _ =>
             destruct b; [clear H | destruct H; discriminate]
         end.
  reflexivity.
Qed.

Lemma cell_Some df field d v :
  cell df field d = Some v -> v = pd.loc df field d.
Proof. unfold cell. destruct (pd.in_index field df); [by intros [= <-] | discriminate]. Qed.

(** What a produced point is made of. *)
Lemma period_point_Some t bs_date p :
  period_point t bs_date = Some p ->
  exists closest_date market_cap,
    In closest_date (pd.columns (financials t)) /\
    (forall d, In d (pd.columns (financials t)) ->
               (pd.abs_diff_days bs_date closest_date
                <= pd.abs_diff_days bs_date d)%Z) /\
    (pd.abs_diff_days bs_date closest_date <= 180)%Z /\
    values_available t = true /\
    dict_get (numbers (info t)) "marketCap" = Some market_cap /\
    p = {| date := pd.year bs_date;
           z_score :=
             calculate_z_score
               ((pd.loc (balance_sheet t) "Total Current Assets" bs_date
                 - pd.loc (balance_sheet t) "Total Current Liabilities" bs_date)
                / pd.loc (balance_sheet t) "Total Assets" bs_date)
               (pd.loc (balance_sheet t) "Retained Earnings" bs_date
                / pd.loc (balance_sheet t) "Total Assets" bs_date)
               (pd.loc (financials t) "Ebit" closest_date
                / pd.loc (balance_sheet t) "Total Assets" bs_date)
               (market_cap / pd.loc (balance_sheet t) "Total Liab" bs_date)
               (pd.loc (financials t) "Total Revenue" closest_date
                / pd.loc (balance_sheet t) "Total Assets" bs_date);
           working_capital_ratio :=
             (pd.loc (balance_sheet t) "Total Current Assets" bs_date
              - pd.loc (balance_sheet t) "Total Current Liabilities" bs_date)
             / pd.loc (balance_sheet t) "Total Assets" bs_date;
           retained_earnings_ratio :=
             pd.loc (balance_sheet t) "Retained Earnings" bs_date
             / pd.loc (balance_sheet t) "Total Assets" bs_date;
           ebit_ratio :=
             pd.loc (financials t) "Ebit" closest_date
             / pd.loc (balance_sheet t) "Total Assets" bs_date;
           market_equity_ratio :=
             market_cap / pd.loc (balance_sheet t) "Total Liab" bs_date;
           sales_ratio :=
             pd.loc (financials t) "Total Revenue" closest_date
             / pd.loc (balance_sheet t) "Total Assets" bs_date |}.
Proof.
  unfold period_point.
  destruct (closest bs_date (pd.columns (financials t)) None 365)
    as [[cd|] diff] eqn:E; [|discriminate].
  destruct (180 <? diff)%Z eqn:Hdiff; [discriminate|].
  apply Z.ltb_ge in Hdiff. apply closest_Some in E. destruct E as (Hin & -> & Hmin).
  destruct (cell (balance_sheet t) "Total Assets" bs_date) as [ta|] eqn:E1;
    [|discriminate].
  destruct (cell (balance_sheet t) "Total Liab" bs_date) as [tl|] eqn:E2;
    [|discriminate].
  destruct (cell (balance_sheet t) "Total Current Assets" bs_date) as [ca|] eqn:E3;
    [|discriminate].
  destruct (cell (balance_sheet t) "Total Current Liabilities" bs_date)
    as [cl|] eqn:E4; [|discriminate].
  destruct (cell (balance_sheet t) "Retained Earnings" bs_date) as [re|] eqn:E5;
    [|discriminate].
  destruct (cell (financials t) "Ebit" cd) as [eb|] eqn:E6; [|discriminate].
  destruct (cell (financials t) "Total Revenue" cd) as [sa|] eqn:E7; [|discriminate].
  destruct (dict_get (numbers (info t)) "marketCap") as [mc|] eqn:E8; [|discriminate].
  intros [= <-]. exists cd, mc.
  split; [done|]. split; [done|]. split; [done|]. split.
  - apply (cells_values_available t bs_date cd);
      rewrite ?E1, ?E2, ?E3, ?E4, ?E5, ?E6, ?E7, ?E8; by eexists.
  - split; [done|].
    apply cell_Some in E1, E2, E3, E4, E5, E6, E7. by subst.
Qed.

(** A period yields a point exactly when some income statement lies within
    180 days and all eight values are available. *)
Lemma period_point_is_Some t bs_date :
  is_Some (period_point t bs_date) <->
  (exists d, In d (pd.columns (financials t)) /\
             (pd.abs_diff_days bs_date d <= 180)%Z) /\
  values_available t = true.
Proof.
  split.
  - intros [p H]. apply period_point_Some in H.
    destruct H as (cd & mc & Hin & _ & Hle & Hav & _). split; [by exists cd | done].
  - intros [Hd Hav]. apply distance_rule in Hd. destruct Hd as (cd & diff & E & Hle).
    unfold period_point. rewrite E, Hle.
    destruct (values_available_cells t bs_date cd Hav)
      as (-> & -> & -> & -> & -> & -> & -> & [mc ->]).
    by eexists.
Qed.

Lemma period_point_date t bs_date p :
  period_point t bs_date = Some p -> date p = pd.year bs_date.
Proof.
  intros H. apply period_point_Some in H.
  destruct H as (cd & mc & _ & _ & _ & _ & _ & ->). reflexivity.
Qed.

(** C7: a produced point is paired with an income-statement period at minimal
    distance from the balance-sheet period, no more than 180 days away; a
    period whose every income statement is more than 180 days away yields no
    point; a nearest match at exactly 180 days passes the distance rule (and
    yields a point when the values are there), one at 181 days is skipped. *)
Theorem closest_income_statement_within_180_days :
  (forall t bs_date p,
      period_point t bs_date = Some p ->
      exists closest_date,
        In closest_date (pd.columns (financials t)) /\
        (forall d, In d (pd.columns (financials t)) ->
                   (pd.abs_diff_days bs_date closest_date
                    <= pd.abs_diff_days bs_date d)%Z) /\
        (pd.abs_diff_days bs_date closest_date <= 180)%Z /\
        ebit_ratio p
        = (pd.loc (financials t) "Ebit" closest_date
           / pd.loc (balance_sheet t) "Total Assets" bs_date)%Q /\
        sales_ratio p
        = (pd.loc (financials t) "Total Revenue" closest_date
           / pd.loc (balance_sheet t) "Total Assets" bs_date)%Q) /\
  (forall t bs_date,
      (forall d, In d (pd.columns (financials t)) ->
                 (180 < pd.abs_diff_days bs_date d)%Z) ->
      period_point t bs_date = None) /\
  (forall t bs_date,
      (exists d, In d (pd.columns (financials t)) /\
                 (pd.abs_diff_days bs_date d <= 180)%Z) ->
      (exists cd diff,
          closest bs_date (pd.columns (financials t)) None 365 = (Some cd, diff) /\
          (180 <? diff)%Z = false) /\
      (values_available t = true -> is_Some (period_point t bs_date))) /\
  (pd.abs_diff_days dec_31_2020 jul_04_2020 = 180%Z /\
   is_Some (period_point apart_180 dec_31_2020) /\
   exists p, get_historical_financials apart_180 5 = (Some [p], None) /\
             date p = 2020%Z) /\
  (pd.abs_diff_days dec_31_2020 jul_03_2020 = 181%Z /\
   period_point apart_181 dec_31_2020 = None /\
   get_historical_financials apart_181 5
   = (None, Some "Could not calculate historical Z-Scores.")).
Proof.
  split; [|split; [|split; [|split]]].
  - intros t bs_date p H. apply period_point_Some in H.
    destruct H as (cd & mc & Hin & Hmin & Hle & _ & _ & ->).
    exists cd. auto.
  - intros t bs_date Hfar.
    destruct (period_point t bs_date) as [p|] eqn:E; [|reflexivity].
    assert (Hs : is_Some (period_point t bs_date)) by (by eexists).
    apply period_point_is_Some in Hs. destruct Hs as [(d & Hin & Hle) _].
    specialize (Hfar d Hin). lia.
  - intros t bs_date Hnear. split; [by apply distance_rule|].
    intros Hav. by apply period_point_is_Some.
  - split; [reflexivity|]. split.
    + apply period_point_is_Some. split; [|reflexivity].
      exists jul_04_2020. split; [by left | by vm_compute].
    + eexists. split; [vm_compute; reflexivity | reflexivity].
  - split; [reflexivity|]. split; vm_compute; reflexivity.
Qed.

(** ** The loop over balance-sheet periods *)

Lemma find_snoc {A : Type} (f : A -> bool) (l : list A) (x : A) :
  List.find f (l ++ [x])
  = match List.find f l with
    | Some y => Some y
    | None => if f x then Some x else None
    end.
Proof.
  induction l as [|a l IH]; simpl; [reflexivity|].
  destruct (f a); [reflexivity | exact IH].
Qed.

Lemma produces_spec t y d :
  produces t y d = true <-> pd.year d = y /\ is_Some (period_point t d).
Proof.
  unfold produces. rewrite andb_true_iff, Z.eqb_eq.
  destruct (period_point t d); simpl.
  - split; intros [? _]; split; [done | by eexists | done | done].
  - split; intros [_ H]; [discriminate | destruct H; discriminate].
Qed.

Lemma series_invariant_start t : series_invariant t [] ([], ∅).
Proof.
  split; [|split; [|split]]; cbn.
  - intros y. split; [intros H; by apply not_elem_of_empty in H | intros []].
  - constructor.
  - intros p. split; [intros [] | intros (d & H & _); discriminate].
  - lia.
Qed.

(** One round of the loop keeps the invariant. *)
Lemma series_invariant_step t seen state bs_date :
  series_invariant t seen state ->
  series_invariant t (seen ++ [bs_date]) (process t state bs_date).
Proof.
  destruct state as [hd used]. intros (I1 & I2 & I3 & I4). cbn [fst snd] in *.
  assert (Hkeep : forall p, In p hd ->
    exists d, first_producing t (date p) (seen ++ [bs_date]) = Some d /\
              period_point t d = Some p).
  { intros p Hp. apply I3 in Hp. destruct Hp as (d & Hf & Hp). exists d.
    split; [|done]. unfold first_producing in *. by rewrite find_snoc, Hf. }
  assert (Hold : forall p d,
    first_producing t (date p) (seen ++ [bs_date]) = Some d ->
    period_point t d = Some p ->
    In p hd \/
    (first_producing t (date p) seen = None /\ d = bs_date /\
     pd.year bs_date = date p)).
  { intros p d Hf Hp. unfold first_producing in *. rewrite find_snoc in Hf.
    destruct (List.find (produces t (date p)) seen) as [x|] eqn:E.
    - injection Hf as ->. left. apply I3. by exists d.
    - destruct (produces t (date p) bs_date) eqn:Epr; [|discriminate].
      injection Hf as <-. right. apply produces_spec in Epr. tauto. }
  assert (Hused : forall p, In p hd -> pd.year bs_date = date p ->
    first_producing t (date p) seen = None -> False).
  { intros p Hp _ Hnone. apply I3 in Hp. destruct Hp as (d & Hf & _). congruence. }
  assert (Hlen : (length hd <= length (seen ++ [bs_date]))%nat)
    by (rewrite length_app; cbn; lia).
  unfold process. cbn [fst snd].
  destruct (bool_decide (pd.year bs_date ∈ used)) eqn:Hyear.
  - apply bool_decide_eq_true in Hyear. apply I1 in Hyear.
    apply in_map_iff in Hyear. destruct Hyear as (p0 & Hdate & Hp0).
    split; [|split; [|split]]; cbn [fst snd]; [done | done | | done].
    intros p. split; [apply Hkeep|].
    intros (d & Hf & Hp). destruct (Hold p d Hf Hp) as [? | (Hnone & -> & Hy)]; [done|].
    exfalso. apply (Hused p0 Hp0); [congruence|]. by rewrite Hdate, Hy.
  - apply bool_decide_eq_false in Hyear.
    destruct (period_point t bs_date) as [q|] eqn:Hq.
    + pose proof (period_point_date _ _ _ Hq) as Hdq.
      assert (Hfresh : ~ In (date q) (map date hd)).
      { intros H. apply Hyear. apply I1. by rewrite <- Hdq. }
      split; [|split; [|split]]; cbn [fst snd].
      * intros y. rewrite elem_of_union, elem_of_singleton, map_app, in_app_iff, I1.
        cbn. rewrite Hdq. intuition.
      * rewrite map_app. cbn.
        apply NoDup_rev in I2. rewrite <- (rev_involutive (_ ++ _)).
        apply NoDup_rev. rewrite rev_app_distr. cbn. constructor; [|done].
        by rewrite <- in_rev.
      * intros p. rewrite in_app_iff. split.
        -- intros [Hp | [<- | []]]; [by apply Hkeep|].
           exists bs_date. split; [|done].
           unfold first_producing. rewrite find_snoc.
           destruct (List.find (produces t (date q)) seen) as [x|] eqn:E.
           ++ exfalso. destruct (find_some _ _ E) as [_ Epr].
              apply produces_spec in Epr. destruct Epr as [Hy [p0 Hp0]].
              apply Hfresh. apply in_map_iff. exists p0.
              pose proof (period_point_date _ _ _ Hp0) as Hd0.
              split; [congruence|]. apply I3. exists x. split; [|done].
              unfold first_producing.
              assert (Heq : date p0 = date q) by congruence.
              by rewrite Heq.
           ++ assert (Hpr : produces t (date q) bs_date = true).
              { apply produces_spec. split; [done | by eexists]. }
              by rewrite Hpr.
        -- intros (d & Hf & Hp).
           destruct (Hold p d Hf Hp) as [? | (_ & -> & _)]; [by left|].
           right. left. congruence.
      * rewrite !length_app. cbn. lia.
    + split; [|split; [|split]]; cbn [fst snd]; [done | done | | done].
      intros p. split; [apply Hkeep|].
      intros (d & Hf & Hp). destruct (Hold p d Hf Hp) as [? | (_ & -> & _)]; [done|].
      congruence.
Qed.

Lemma series_invariant_fold t cols seen state :
  series_invariant t seen state ->
  series_invariant t (seen ++ cols) (fold_left (process t) cols state).
Proof.
  revert seen state.
  induction cols as [|d cols IH]; intros seen state H; cbn [fold_left].
  - by rewrite app_nil_r.
  - replace (seen ++ d :: cols)%list with ((seen ++ [d]) ++ cols)%list
      by (by rewrite <- app_assoc).
    apply IH. by apply series_invariant_step.
Qed.

Lemma series_invariant_collect t :
  series_invariant t (pd.columns (balance_sheet t)) (collect t).
Proof.
  unfold collect.
  apply (series_invariant_fold t (pd.columns (balance_sheet t)) []).
  apply series_invariant_start.
Qed.

(** ** Sorting by year *)

Lemma insert_by_date_perm p l : Permutation (insert_by_date p l) (p :: l).
Proof.
  induction l as [|q rest IH]; cbn [insert_by_date]; [reflexivity|].
  destruct (date p <=? date q)%Z; [reflexivity|].
  rewrite IH. apply perm_swap.
Qed.

Lemma sort_values_perm l : Permutation (sort_values l) l.
Proof.
  induction l as [|p rest IH]; cbn; [reflexivity|].
  fold (sort_values rest). rewrite insert_by_date_perm. by constructor.
Qed.

Lemma insert_by_date_sorted p l :
  Sorted Z.le (map date l) -> Sorted Z.le (map date (insert_by_date p l)).
Proof.
  induction l as [|q rest IH]; cbn [insert_by_date map]; intros H.
  - repeat constructor.
  - destruct (date p <=? date q)%Z eqn:E; cbn [map].
    + apply Z.leb_le in E. constructor; [exact H | by constructor].
    + apply Z.leb_gt in E. inversion H as [|? ? Hs Hh]; subst.
      constructor; [by apply IH|].
      destruct rest as [|r rest]; cbn [insert_by_date map].
      * constructor. lia.
      * destruct (date p <=? date r)%Z; cbn [map]; constructor;
          [lia | by inversion Hh].
Qed.

Lemma sort_values_sorted l : Sorted Z.le (map date (sort_values l)).
Proof.
  induction l as [|p rest IH]; cbn; [constructor|].
  fold (sort_values rest). by apply insert_by_date_sorted.
Qed.

(** Ascending without repetition is strictly ascending. *)
Lemma sorted_nodup_strict (l : list Z) :
  Sorted Z.le l -> List.NoDup l -> StronglySorted Z.lt l.
Proof.
  intros Hs. apply Sorted_StronglySorted in Hs; [|intros x y z; lia].
  induction Hs as [|a l Hs IH Hall]; intros Hnd; [constructor|].
  inversion Hnd as [|? ? Hnotin Hnd']; subst.
  constructor; [by apply IH|].
  rewrite Forall_forall in Hall |- *. intros x Hx.
  apply list_elem_of_In in Hx.
  assert (a <> x) by (intros ->; contradiction).
  specialize (Hall x (proj2 (list_elem_of_In _ _) Hx)). lia.
Qed.

(** What a successful call returns. *)
Lemma get_historical_financials_Some t years l :
  fst (get_historical_financials t years) = Some l ->
  get_historical_financials t years = (Some l, None) /\
  l = sort_values (fst (collect t)) /\
  pd.empty (balance_sheet t) = false /\ pd.empty (financials t) = false.
Proof.
  unfold get_historical_financials.
  destruct (pd.empty (balance_sheet t)); [discriminate|].
  destruct (pd.empty (financials t)); [discriminate|]. cbn [orb].
  destruct (fst (collect t)) as [|p rest]; [discriminate|].
  cbn [fst]. intros [= <-]. auto.
Qed.

(** ** The historical series *)

(** C4: the bound by [years] is not kept.  The parameter is declared with
    the default 5 and its body never reads it: asked for at most one year on
    statements with two fiscal years, the builder returns two points. *)
Lemma two_points_for_one_year :
  exists l, get_historical_financials two_years 1 = (Some l, None) /\
            map date l = [2022%Z; 2023%Z] /\
            (1 < Z.of_nat (length l))%Z.
Proof.
  eexists. split; [vm_compute; reflexivity|]. split; [reflexivity | by vm_compute].
Qed.

(** The series has at most one point per annual balance-sheet period. *)
Lemma historical_series_length (t : Ticker) (years : Z) (l : list HistoricalPoint) :
  fst (get_historical_financials t years) = Some l ->
  (length l <= length (pd.columns (balance_sheet t)))%nat.
Proof.
  intros H. apply get_historical_financials_Some in H.
  destruct H as (_ & -> & _).
  rewrite (Permutation_length (sort_values_perm _)).
  apply (series_invariant_collect t).
Qed.

(** C8, as stated, fails: of two balance sheets dated in 2020 the first one
    encountered is skipped, and the single point for 2020 is computed from
    the second. *)
Lemma point_from_later_period :
  pd.columns (balance_sheet late_then_early) = [dec_31_2020; jan_15_2020] /\
  pd.year dec_31_2020 = pd.year jan_15_2020 /\
  exists p,
    get_historical_financials late_then_early 5 = (Some [p], None) /\
    date p = 2020%Z /\
    period_point late_then_early dec_31_2020 = None /\
    period_point late_then_early jan_15_2020 = Some p /\
    (working_capital_ratio p
     == (pd.loc (balance_sheet late_then_early) "Total Current Assets" jan_15_2020
         - pd.loc (balance_sheet late_then_early) "Total Current Liabilities" jan_15_2020)
        / pd.loc (balance_sheet late_then_early) "Total Assets" jan_15_2020)%Q /\
    ~ (working_capital_ratio p
       == (pd.loc (balance_sheet late_then_early) "Total Current Assets" dec_31_2020
           - pd.loc (balance_sheet late_then_early) "Total Current Liabilities" dec_31_2020)
          / pd.loc (balance_sheet late_then_early) "Total Assets" dec_31_2020)%Q.
Proof.
  split; [reflexivity|]. split; [reflexivity|].
  eexists. split; [vm_compute; reflexivity|].
  split; [reflexivity|]. split; [vm_compute; reflexivity|].
  split; [vm_compute; reflexivity|].
  split; [reflexivity|]. by vm_compute.
Qed.

(** C8, amended: the returned sequence has at most one point per calendar
    year and is in ascending order of year; the point of a year is the one
    computed from the first balance-sheet period of that year that is not
    skipped. *)
Theorem historical_series_one_per_year (t : Ticker) (years : Z)
    (l : list HistoricalPoint) :
  fst (get_historical_financials t years) = Some l ->
  List.NoDup (map date l) /\
  Sorted Z.le (map date l) /\
  StronglySorted Z.lt (map date l) /\
  (forall p, In p l <->
             exists d, first_producing t (date p) (pd.columns (balance_sheet t))
                       = Some d /\
                       period_point t d = Some p).
Proof.
  intros H. apply get_historical_financials_Some in H. destruct H as (_ & -> & _).
  destruct (series_invariant_collect t) as (_ & Hnd & Hfrom & _).
  assert (Hnd' : List.NoDup (map date (sort_values (fst (collect t))))).
  { eapply Permutation_NoDup; [|exact Hnd].
    apply Permutation_map. symmetry. apply sort_values_perm. }
  split; [exact Hnd'|]. split; [apply sort_values_sorted|].
  split; [apply sorted_nodup_strict; [apply sort_values_sorted | exact Hnd']|].
  intros p. rewrite <- Hfrom. split; apply Permutation_in.
  - apply sort_values_perm.
  - symmetry. apply sort_values_perm.
Qed.

Lemma historical_series_one_per_year_witness :
  List.NoDup (map date (sort_values (fst (collect two_years)))) /\
  Sorted Z.le (map date (sort_values (fst (collect two_years)))) /\
  StronglySorted Z.lt (map date (sort_values (fst (collect two_years)))) /\
  (forall p, In p (sort_values (fst (collect two_years))) <->
             exists d, first_producing two_years (date p)
                         (pd.columns (balance_sheet two_years)) = Some d /\
                       period_point two_years d = Some p).
Proof.
  apply (historical_series_one_per_year two_years 5).
  vm_compute. reflexivity.
Defined.

(** C10: a year enters [used_dates] only together with a point for it: a
    skipped period leaves the loop state as it was, and after the loop the
    used years are exactly the years of the points.  So a skipped period
    does not block a later period of its year: on the sample the first period
    of 2020 is skipped and the point for 2020 comes from the second. *)
Theorem used_year_only_with_point :
  (forall t state bs_date,
      period_point t bs_date = None -> process t state bs_date = state) /\
  (forall t state bs_date y,
      y ∈ snd (process t state bs_date) ->
      y ∈ snd state \/
      (y = pd.year bs_date /\ exists p,
          period_point t bs_date = Some p /\
          fst (process t state bs_date) = (fst state ++ [p])%list)) /\
  (forall t y, y ∈ snd (collect t) <-> In y (map date (fst (collect t)))) /\
  (pd.columns (balance_sheet late_then_early) = [dec_31_2020; jan_15_2020] /\
   pd.year dec_31_2020 = pd.year jan_15_2020 /\
   period_point late_then_early dec_31_2020 = None /\
   exists p,
     period_point late_then_early jan_15_2020 = Some p /\
     get_historical_financials late_then_early 5 = (Some [p], None)).
Proof.
  split; [|split; [|split]].
  - intros t state bs_date H. unfold process. rewrite H.
    by destruct (bool_decide _).
  - intros t state bs_date y. unfold process.
    destruct (bool_decide _); [by left|].
    destruct (period_point t bs_date) as [p|]; [|by left].
    cbn [fst snd]. rewrite elem_of_union, elem_of_singleton.
    intros [? | ->]; [by left|]. right. split; [done|]. by exists p.
  - intros t y. apply (series_invariant_collect t).
  - split; [reflexivity|]. split; [reflexivity|].
    split; [vm_compute; reflexivity|].
    eexists. split; vm_compute; reflexivity.
Qed.

(** * Further properties of the resolver *)

(** ** Order of the direct lookups *)

Lemma find_field_hit source d field_names f :
  pd.empty source = false ->
  first_in_index source field_names = Some f ->
  find_field source (Some d) field_names = Some (f, d, pd.loc source f d).
Proof. unfold find_field. by intros -> ->. Qed.

Lemma find_field_unlisted source date field_names :
  listed source field_names = false ->
  find_field source date field_names = None.
Proof.
  unfold listed, find_field. destruct (pd.empty source); [done|]. cbn.
  intros H. destruct date as [d|]; [|done].
  destruct (first_in_index source field_names) as [f|] eqn:E; [|done].
  assert (Hs : is_Some (first_in_index source field_names)) by (by eexists).
  apply first_in_index_listed in Hs. congruence.
Qed.

Lemma listed_first_in_index source field_names :
  listed source field_names = true ->
  pd.empty source = false /\ exists f, first_in_index source field_names = Some f.
Proof.
  unfold listed. rewrite andb_true_iff, negb_true_iff. intros [He Hl].
  split; [done|]. apply first_in_index_listed in Hl. destruct Hl as [f Hf].
  by exists f.
Qed.

(** The name found is the first of the list that labels a row. *)
Lemma first_in_index_first source field_names f :
  first_in_index source field_names = Some f <->
  exists before after,
    field_names = (before ++ f :: after)%list /\
    pd.in_index f source = true /\
    forall x, In x before -> pd.in_index x source = false.
Proof.
  split.
  - revert f. induction field_names as [|a rest IH]; intros f; cbn; [discriminate|].
    destruct (pd.in_index a source) eqn:E.
    + intros [= <-]. exists [], rest. split; [done|]. split; [done | intros x []].
    + intros H. destruct (IH f H) as (before & after & -> & Hin & Hb).
      exists (a :: before), after. split; [done|]. split; [done|].
      intros x [<- | Hx]; [done | by apply Hb].
  - intros (before & after & -> & Hin & Hb).
    induction before as [|a before IH]; cbn.
    + by rewrite Hin.
    + rewrite (Hb a (or_introl eq_refl)). apply IH.
      intros x Hx. apply Hb. by right.
Qed.

(** A lookup over an annual statement and its quarterly counterpart. *)
Lemma direct_two_sources annual quarterly d dq field_names source_name :
  (forall f, pd.empty annual = false ->
             first_in_index annual field_names = Some f ->
             direct [(annual, Some d, field_names); (quarterly, dq, field_names)]
               source_name
             = Some (pd.loc annual f d, (Text f, At d, source_name))) /\
  (forall f d', listed annual field_names = false ->
                pd.empty quarterly = false -> dq = Some d' ->
                first_in_index quarterly field_names = Some f ->
                direct [(annual, Some d, field_names); (quarterly, dq, field_names)]
                  source_name
                = Some (pd.loc quarterly f d', (Text f, At d', source_name))) /\
  (listed annual field_names = false ->
   listed quarterly field_names = false ->
   direct [(annual, Some d, field_names); (quarterly, dq, field_names)] source_name
   = None).
Proof.
  unfold direct. cbn [find_first]. split; [|split].
  - intros f He Hf. by rewrite (find_field_hit _ _ _ _ He Hf).
  - intros f d' Hu He -> Hf.
    by rewrite (find_field_unlisted _ _ _ Hu), (find_field_hit _ _ _ _ He Hf).
  - intros Hu Hq.
    by rewrite (find_field_unlisted _ _ _ Hu), (find_field_unlisted _ _ _ Hq).
Qed.

Lemma direct_Some_listed annual quarterly d dq field_names source_name r :
  direct [(annual, Some d, field_names); (quarterly, dq, field_names)] source_name
  = Some r ->
  listed annual field_names = true \/ listed quarterly field_names = true.
Proof.
  intros H.
  destruct (listed annual field_names) eqn:Ha; [by left|].
  destruct (listed quarterly field_names) eqn:Hq; [by right|].
  destruct (direct_two_sources annual quarterly d dq field_names source_name)
    as (_ & _ & Hnone).
  rewrite (Hnone Ha Hq) in H. discriminate.
Qed.

(** A lookup fails exactly when neither statement lists a spelling. *)
Lemma direct_None_iff annual quarterly d field_names source_name :
  direct [(annual, Some d, field_names);
          (quarterly, first_column quarterly, field_names)] source_name = None <->
  listed annual field_names = false /\ listed quarterly field_names = false.
Proof.
  split.
  - intros H.
    destruct (listed annual field_names) eqn:Ha.
    + apply listed_first_in_index in Ha. destruct Ha as (He & f & Hf).
      destruct (direct_two_sources annual quarterly d (first_column quarterly)
                  field_names source_name) as (H1 & _).
      rewrite (H1 f He Hf) in H. discriminate.
    + split; [done|]. destruct (listed quarterly field_names) eqn:Hl; [|done].
      apply listed_first_in_index in Hl. destruct Hl as (He & f & Hf).
      destruct (first_column_nonempty _ He) as [d' Hd'].
      destruct (direct_two_sources annual quarterly d (first_column quarterly)
                  field_names source_name) as (_ & H2 & _).
      rewrite (H2 f d' Ha He Hd' Hf) in H. discriminate.
  - intros [Ha Hl]. by apply direct_two_sources.
Qed.

Lemma direct_bs_None t bs_date field_names :
  direct (bs_attempts t bs_date field_names) "balance_sheet" = None <->
  listed (balance_sheet t) field_names = false /\
  listed (quarterly_balance_sheet t) field_names = false.
Proof. unfold bs_attempts. rewrite dates_qbs. apply direct_None_iff. Qed.


(** X1: a direct lookup reads the annual statement first.  If that statement
    is non-empty and lists a spelling, the value is its cell at the primary
    date under the first listed spelling, whatever the quarterly statement
    holds; otherwise the value is the quarterly statement's cell at its first
    period; the lookup fails exactly when neither statement lists a spelling.
    The same holds for income-statement lookups. *)
Theorem direct_lookup_order :
  (forall t bs_date field_names f,
      pd.empty (balance_sheet t) = false ->
      first_in_index (balance_sheet t) field_names = Some f ->
      direct (bs_attempts t bs_date field_names) "balance_sheet"
      = Some (pd.loc (balance_sheet t) f bs_date,
              (Text f, At bs_date, "balance_sheet"))) /\
  (forall t bs_date field_names f d,
      listed (balance_sheet t) field_names = false ->
      first_column (quarterly_balance_sheet t) = Some d ->
      first_in_index (quarterly_balance_sheet t) field_names = Some f ->
      direct (bs_attempts t bs_date field_names) "balance_sheet"
      = Some (pd.loc (quarterly_balance_sheet t) f d,
              (Text f, At d, "balance_sheet"))) /\
  (forall t bs_date field_names,
      direct (bs_attempts t bs_date field_names) "balance_sheet" = None <->
      listed (balance_sheet t) field_names = false /\
      listed (quarterly_balance_sheet t) field_names = false) /\
  (forall t fs_date field_names f,
      pd.empty (financials t) = false ->
      first_in_index (financials t) field_names = Some f ->
      direct (fs_attempts t fs_date field_names) "financials"
      = Some (pd.loc (financials t) f fs_date, (Text f, At fs_date, "financials"))) /\
  (forall t fs_date field_names f d,
      listed (financials t) field_names = false ->
      first_column (quarterly_financials t) = Some d ->
      first_in_index (quarterly_financials t) field_names = Some f ->
      direct (fs_attempts t fs_date field_names) "financials"
      = Some (pd.loc (quarterly_financials t) f d, (Text f, At d, "financials"))) /\
  (forall t fs_date field_names,
      direct (fs_attempts t fs_date field_names) "financials" = None <->
      listed (financials t) field_names = false /\
      listed (quarterly_financials t) field_names = false).
Proof.
  assert (Hq : forall df d, first_column df = Some d -> pd.empty df = false).
  { intros df d H. destruct (pd.empty df) eqn:E; [|done].
    by rewrite (first_column_empty _ E) in H. }
  unfold bs_attempts, fs_attempts.
  split; [|split; [|split; [|split; [|split]]]].
  - intros t bs_date field_names f He Hf. by apply direct_two_sources.
  - intros t bs_date field_names f d Hu Hd Hf. rewrite dates_qbs.
    apply direct_two_sources; try done. by apply (Hq _ d).
  - intros t bs_date field_names. rewrite dates_qbs. apply direct_None_iff.
  - intros t fs_date field_names f He Hf. by apply direct_two_sources.
  - intros t fs_date field_names f d Hu Hd Hf. rewrite dates_qfs.
    apply direct_two_sources; try done. by apply (Hq _ d).
  - intros t fs_date field_names. rewrite dates_qfs. apply direct_None_iff.
Qed.

(** ** Derived total liabilities *)

Lemma find_first_two_hit annual quarterly d dq field_names f :
  pd.empty annual = false ->
  first_in_index annual field_names = Some f ->
  find_first [(annual, Some d, field_names); (quarterly, dq, field_names)]
  = Some (f, d, pd.loc annual f d).
Proof. intros He Hf. cbn [find_first]. by rewrite (find_field_hit _ _ _ _ He Hf). Qed.

Lemma find_first_two_unlisted annual quarterly d dq field_names :
  listed annual field_names = false ->
  listed quarterly field_names = false ->
  find_first [(annual, Some d, field_names); (quarterly, dq, field_names)] = None.
Proof.
  intros Ha Hq. cbn [find_first].
  by rewrite (find_field_unlisted _ _ _ Ha), (find_field_unlisted _ _ _ Hq).
Qed.

(** X2: total liabilities are derived only when no statement lists them and
    total assets are known.  A listed spelling always wins (kind
    balance_sheet); otherwise, with total assets [a] and the annual balance
    sheet listing stockholder equity, the value is [a - equity] with kind
    calculated; without total assets, or without any equity row, nothing is
    derived. *)
Theorem total_liabilities_derivation :
  (forall t bs_date ta v e,
      resolve_total_liabilities t bs_date ta = Some (v, e) ->
      (snd e = "balance_sheet" /\
       (listed (balance_sheet t) total_liabilities_fields = true \/
        listed (quarterly_balance_sheet t) total_liabilities_fields = true)) \/
      (listed (balance_sheet t) total_liabilities_fields = false /\
       listed (quarterly_balance_sheet t) total_liabilities_fields = false /\
       exists a equity d,
         ta = Some a /\ v = (a - equity)%Q /\
         e = (Calculated_from a "-" equity, At d, "calculated"))) /\
  (forall t bs_date a f,
      listed (balance_sheet t) total_liabilities_fields = false ->
      listed (quarterly_balance_sheet t) total_liabilities_fields = false ->
      pd.empty (balance_sheet t) = false ->
      first_in_index (balance_sheet t) stockholder_equity_fields = Some f ->
      resolve_total_liabilities t bs_date (Some a)
      = Some ((a - pd.loc (balance_sheet t) f bs_date)%Q,
              (Calculated_from a "-" (pd.loc (balance_sheet t) f bs_date),
               At bs_date, "calculated"))) /\
  (forall t bs_date,
      listed (balance_sheet t) total_liabilities_fields = false ->
      listed (quarterly_balance_sheet t) total_liabilities_fields = false ->
      resolve_total_liabilities t bs_date None = None) /\
  (forall t bs_date ta,
      listed (balance_sheet t) total_liabilities_fields = false ->
      listed (quarterly_balance_sheet t) total_liabilities_fields = false ->
      listed (balance_sheet t) stockholder_equity_fields = false ->
      listed (quarterly_balance_sheet t) stockholder_equity_fields = false ->
      resolve_total_liabilities t bs_date ta = None).
Proof.
  split; [|split; [|split]].
  - intros t bs_date ta v e. unfold resolve_total_liabilities.
    destruct (direct (bs_attempts t bs_date total_liabilities_fields) "balance_sheet")
      as [r|] eqn:E.
    + intros [= ->]. left. split.
      * unfold direct in E. destruct (find_first _) as [[[f d] x]|]; [|discriminate].
        by injection E as <- <-.
      * by apply direct_Some_listed in E.
    + intros H. right.
      apply direct_bs_None in E. destruct E as [Ha Hq].
      split; [done|]. split; [done|].
      destruct ta as [a|]; [|discriminate].
      destruct (find_first _) as [[[f d] equity]|]; [|discriminate].
      injection H as <- <-. by exists a, equity, d.
  - intros t bs_date a f Ha Hq He Hf. unfold resolve_total_liabilities.
    rewrite (proj2 (direct_bs_None t bs_date total_liabilities_fields)
               (conj Ha Hq)).
    unfold bs_attempts. by rewrite (find_first_two_hit _ _ _ _ _ _ He Hf).
  - intros t bs_date Ha Hq. unfold resolve_total_liabilities.
    by rewrite (proj2 (direct_bs_None t bs_date total_liabilities_fields)
                  (conj Ha Hq)).
  - intros t bs_date ta Ha Hq Hea Heq. unfold resolve_total_liabilities.
    rewrite (proj2 (direct_bs_None t bs_date total_liabilities_fields)
               (conj Ha Hq)).
    destruct ta; [|done]. unfold bs_attempts.
    by rewrite (find_first_two_unlisted _ _ _ _ _ Hea Heq).
Qed.

(** ** Current liabilities from components *)


(** ** Derived retained earnings and EBIT *)

Lemma pick_hit source d field_names previous f :
  first_in_index source field_names = Some f ->
  pick source d field_names previous = Some (pd.loc source f d).
Proof. unfold pick. by intros ->. Qed.

Lemma pick_miss source d field_names previous :
  first_in_index source field_names = None ->
  pick source d field_names previous = previous.
Proof. unfold pick. by intros ->. Qed.

Lemma first_in_index_None source field_names :
  first_in_index source field_names = None <->
  existsb (fun f => pd.in_index f source) field_names = false.
Proof.
  pose proof (first_in_index_listed source field_names) as H.
  destruct (first_in_index source field_names) as [f|];
    destruct (existsb _ field_names).
  - split; discriminate.
  - assert (E : false = true) by (apply H; by eexists). discriminate.
  - destruct (proj2 H eq_refl). discriminate.
  - done.
Qed.

(** X4: when no statement lists retained earnings, they are derived as
    stockholder equity minus common stock.  With both rows in the non-empty
    annual balance sheet the annual cells are used.  The two parts are kept
    across the two statements: equity found only in the annual sheet and
    common stock found only in the quarterly one are combined, and the entry
    is dated at the quarterly period.  Without any equity row under the two
    spellings the derivation reads, nothing is derived. *)
Theorem retained_earnings_derivation :
  (forall t bs_date fe fc,
      listed (balance_sheet t) retained_earnings_fields = false ->
      listed (quarterly_balance_sheet t) retained_earnings_fields = false ->
      pd.empty (balance_sheet t) = false ->
      first_in_index (balance_sheet t)
        ["Total Stockholder Equity"; "StockholdersEquity"] = Some fe ->
      first_in_index (balance_sheet t) ["Common Stock"; "CommonStock"] = Some fc ->
      resolve_retained_earnings t bs_date
      = Some ((pd.loc (balance_sheet t) fe bs_date
               - pd.loc (balance_sheet t) fc bs_date)%Q,
              (Calculated_from (pd.loc (balance_sheet t) fe bs_date) "-"
                 (pd.loc (balance_sheet t) fc bs_date),
               At bs_date, "calculated"))) /\
  (forall t bs_date fe fc d,
      listed (balance_sheet t) retained_earnings_fields = false ->
      listed (quarterly_balance_sheet t) retained_earnings_fields = false ->
      pd.empty (balance_sheet t) = false ->
      first_in_index (balance_sheet t)
        ["Total Stockholder Equity"; "StockholdersEquity"] = Some fe ->
      first_in_index (balance_sheet t) ["Common Stock"; "CommonStock"] = None ->
      first_column (quarterly_balance_sheet t) = Some d ->
      first_in_index (quarterly_balance_sheet t)
        ["Total Stockholder Equity"; "StockholdersEquity"] = None ->
      first_in_index (quarterly_balance_sheet t)
        ["Common Stock"; "CommonStock"] = Some fc ->
      resolve_retained_earnings t bs_date
      = Some ((pd.loc (balance_sheet t) fe bs_date
               - pd.loc (quarterly_balance_sheet t) fc d)%Q,
              (Calculated_from (pd.loc (balance_sheet t) fe bs_date) "-"
                 (pd.loc (quarterly_balance_sheet t) fc d),
               At d, "calculated"))) /\
  (forall t bs_date,
      listed (balance_sheet t) retained_earnings_fields = false ->
      listed (quarterly_balance_sheet t) retained_earnings_fields = false ->
      listed (balance_sheet t)
        ["Total Stockholder Equity"; "StockholdersEquity"] = false ->
      listed (quarterly_balance_sheet t)
        ["Total Stockholder Equity"; "StockholdersEquity"] = false ->
      resolve_retained_earnings t bs_date = None) /\
  (forall t bs_date v e,
      resolve_retained_earnings t bs_date = Some (v, e) ->
      snd e = "balance_sheet" \/
      (snd e = "calculated" /\
       listed (balance_sheet t) retained_earnings_fields = false /\
       listed (quarterly_balance_sheet t) retained_earnings_fields = false)).
Proof.
  assert (Hq : forall df d, first_column df = Some d -> pd.empty df = false).
  { intros df d H. destruct (pd.empty df) eqn:E; [|done].
    by rewrite (first_column_empty _ E) in H. }
  assert (Hunl : forall df names,
    listed df names = false ->
    pd.empty df = true \/ first_in_index df names = None).
  { intros df names. unfold listed. destruct (pd.empty df); [by left|]. cbn.
    intros H. right. by apply first_in_index_None. }
  split; [|split; [|split]].
  - intros t bs_date fe fc Ha Hqr He Hfe Hfc. unfold resolve_retained_earnings.
    rewrite (proj2 (direct_bs_None t bs_date retained_earnings_fields)
               (conj Ha Hqr)).
    cbn [derive_retained_earnings]. rewrite He.
    by rewrite (pick_hit _ _ _ _ _ Hfe), (pick_hit _ _ _ _ _ Hfc).
  - intros t bs_date fe fc d Ha Hqr He Hfe Hfc Hd Hqe Hqc.
    unfold resolve_retained_earnings.
    rewrite (proj2 (direct_bs_None t bs_date retained_earnings_fields)
               (conj Ha Hqr)).
    cbn [derive_retained_earnings]. rewrite He, dates_qbs, Hd, (Hq _ _ Hd).
    rewrite (pick_hit _ _ _ _ _ Hfe), (pick_miss _ _ _ _ Hfc).
    by rewrite (pick_miss _ _ _ _ Hqe), (pick_hit _ _ _ _ _ Hqc).
  - intros t bs_date Ha Hqr Hea Heq. unfold resolve_retained_earnings.
    rewrite (proj2 (direct_bs_None t bs_date retained_earnings_fields)
               (conj Ha Hqr)).
    cbn [derive_retained_earnings].
    destruct (Hunl _ _ Hea) as [Ea | Ea]; destruct (Hunl _ _ Heq) as [Eq | Eq].
    + by rewrite Ea, Eq.
    + rewrite Ea. destruct (pd.empty (quarterly_balance_sheet t)); [done|].
      destruct (statement_dates t !! "qbs"); [|done].
      by rewrite (pick_miss _ _ _ _ Eq).
    + rewrite Eq. destruct (pd.empty (balance_sheet t)); [done|].
      by rewrite (pick_miss _ _ _ _ Ea).
    + destruct (pd.empty (balance_sheet t)).
      * destruct (pd.empty (quarterly_balance_sheet t)); [done|].
        destruct (statement_dates t !! "qbs"); [|done].
        by rewrite (pick_miss _ _ _ _ Eq).
      * rewrite (pick_miss _ _ _ _ Ea).
        destruct (pd.empty (quarterly_balance_sheet t)); [done|].
        destruct (statement_dates t !! "qbs"); [|done].
        by rewrite (pick_miss _ _ _ _ Eq).
  - intros t bs_date v e. unfold resolve_retained_earnings.
    destruct (direct (bs_attempts t bs_date retained_earnings_fields) "balance_sheet")
      as [r|] eqn:E.
    + intros [= ->]. left. unfold direct in E.
      destruct (find_first _) as [[[f d] x]|]; [|discriminate].
      by injection E as <- <-.
    + intros H. right. apply direct_bs_None in E. destruct E as [Ha Hqr].
      split; [|done].
      assert (Hk : forall sources equity common_stock v e,
        derive_retained_earnings sources equity common_stock = Some (v, e) ->
        snd e = "calculated").
      { clear. induction sources as [|[source date] rest IH];
          intros equity common_stock v e; cbn [derive_retained_earnings];
          [discriminate|].
        destruct (pd.empty source); [apply IH|].
        destruct date as [d|]; [|apply IH].
        destruct (pick source d _ equity) as [x|]; [|apply IH].
        destruct (pick source d _ common_stock) as [y|]; [|apply IH].
        by intros [= <- <-]. }
      by apply Hk in H.
Qed.






(** ** Market capitalisation *)

(** X6: the market capitalisation is the info entry [marketCap] when it has
    a value; otherwise share price times shares outstanding, the price being
    [regularMarketPrice] and, only when that key is missing, [currentPrice].
    A [regularMarketPrice] key that is present with the value [None] blocks
    the fallback to [currentPrice].  The quantity is unresolved exactly when
    [marketCap] has no value and the share count or the share price has
    none. *)
Theorem market_cap_rule (t : Ticker) :
  (forall m, numbers (info t) !! "marketCap" = Some (Some m) ->
             resolve_market_cap t
             = Some (m, (Text "marketCap", Label "current", "ticker.info"))) /\
  (forall p n, dict_get (numbers (info t)) "marketCap" = None ->
               numbers (info t) !! "regularMarketPrice" = Some (Some p) ->
               numbers (info t) !! "sharesOutstanding" = Some (Some n) ->
               resolve_market_cap t
               = Some ((p * n)%Q, (Calculated_from p "*" n, Label "current",
                                   "calculated"))) /\
  (forall p n, dict_get (numbers (info t)) "marketCap" = None ->
               numbers (info t) !! "regularMarketPrice" = None ->
               numbers (info t) !! "currentPrice" = Some (Some p) ->
               numbers (info t) !! "sharesOutstanding" = Some (Some n) ->
               resolve_market_cap t
               = Some ((p * n)%Q, (Calculated_from p "*" n, Label "current",
                                   "calculated"))) /\
  (dict_get (numbers (info t)) "marketCap" = None ->
   numbers (info t) !! "regularMarketPrice" = Some None ->
   resolve_market_cap t = None) /\
  (resolve_market_cap t = None <->
   dict_get (numbers (info t)) "marketCap" = None /\
   (dict_get (numbers (info t)) "sharesOutstanding" = None \/
    numbers (info t) !! "regularMarketPrice" = Some None \/
    (numbers (info t) !! "regularMarketPrice" = None /\
     dict_get (numbers (info t)) "currentPrice" = None))).
Proof.
  unfold resolve_market_cap, dict_get_default, dict_get.
  split; [|split; [|split; [|split]]].
  - by intros m ->.
  - by intros p n -> -> ->.
  - by intros p n -> -> -> ->.
  - by intros -> ->.
  - destruct (numbers (info t) !! "marketCap") as [[m|]|];
      try (split; [discriminate | intros [? _]; discriminate]);
      destruct (numbers (info t) !! "regularMarketPrice") as [[p|]|];
      destruct (numbers (info t) !! "sharesOutstanding") as [[n|]|];
      destruct (numbers (info t) !! "currentPrice") as [[c|]|];
      split; try discriminate; try tauto;
      intros [_ [? | [? | [? ?]]]]; discriminate.
Qed.

(** ** The successful result *)

Lemma unresolved_nil_values (r : Resolved) :
  unresolved r = [] ->
  exists ta tl ca cl re eb sa mc,
    total_assets r = Some ta /\ total_liabilities r = Some tl /\
    current_assets r = Some ca /\ current_liabilities r = Some cl /\
    retained_earnings r = Some re /\ ebit r = Some eb /\
    sales r = Some sa /\ market_cap r = Some mc.
Proof.
  intros H.
  assert (Hq : forall q, is_Some (quantity_value r q)).
  { intros q. destruct (quantity_value r q) eqn:E; [by eexists|].
    apply unresolved_spec in E. rewrite H in E. destruct E. }
  destruct (Hq Total_Assets) as [ta Hta], (Hq Total_Liabilities) as [tl Htl],
    (Hq Current_Assets) as [ca Hca], (Hq Current_Liabilities) as [cl Hcl],
    (Hq Retained_Earnings) as [re Hre], (Hq EBIT) as [eb Heb],
    (Hq Sales) as [sa Hsa], (Hq Market_Cap) as [mc Hmc].
  cbn [quantity_value] in *. exists ta, tl, ca, cl, re, eb, sa, mc. auto 10.
Qed.

Lemma resolve_working_capital_value ticker_symbol t bs_date fs_date ca cl :
  current_assets (resolve ticker_symbol t bs_date fs_date) = Some ca ->
  current_liabilities (resolve ticker_symbol t bs_date fs_date) = Some cl ->
  working_capital (resolve ticker_symbol t bs_date fs_date) = Some (ca - cl)%Q /\
  field_values (resolve ticker_symbol t bs_date fs_date) !! "working_capital"
  = Some (Calculated_from ca "-" cl, Label "N/A", "calculated").
Proof.
  unfold resolve. cbn [current_assets current_liabilities working_capital field_values].
  intros -> ->. cbn [resolve_working_capital value]. split; [done|].
  apply lookup_insert_eq.
Qed.

(** X7: a call returns financial data exactly when the date check passes and
    all eight quantities resolve.  The data then carry no error, the symbol
    as given, the primary balance-sheet date as report date, every resolved
    value, working capital equal to current assets minus current liabilities
    with its own calculated entry, and the complete [field_values] as
    [field_sources]. *)
Theorem financial_data_contents (ticker_symbol : string) (t : Ticker) :
  (is_Some (result_data (get_financial_data ticker_symbol t)) <->
   exists bs_date fs_date,
     latest_bs_date t = Some bs_date /\ latest_fs_date t = Some fs_date /\
     unresolved (resolve ticker_symbol t bs_date fs_date) = []) /\
  (forall fd,
      result_data (get_financial_data ticker_symbol t) = Some fd ->
      result_error (get_financial_data ticker_symbol t) = None /\
      exists bs_date fs_date,
        latest_bs_date t = Some bs_date /\ latest_fs_date t = Some fs_date /\
        FinancialData.ticker fd = ticker_symbol /\
        FinancialData.report_date fd = bs_date /\
        (forall q,
            quantity_value (resolve ticker_symbol t bs_date fs_date) q
            = Some (match q with
                    | Total_Assets => FinancialData.total_assets fd
                    | Total_Liabilities => FinancialData.total_liabilities fd
                    | Current_Assets => FinancialData.current_assets fd
                    | Current_Liabilities => FinancialData.current_liabilities fd
                    | Retained_Earnings => FinancialData.retained_earnings fd
                    | EBIT => FinancialData.ebit fd
                    | Sales => FinancialData.sales fd
                    | Market_Cap => FinancialData.market_value_equity fd
                    end)) /\
        FinancialData.working_capital fd
        = (FinancialData.current_assets fd
           - FinancialData.current_liabilities fd)%Q /\
        FinancialData.field_sources fd
        = field_values (resolve ticker_symbol t bs_date fs_date) /\
        FinancialData.field_sources fd !! "working_capital"
        = Some (Calculated_from (FinancialData.current_assets fd) "-"
                  (FinancialData.current_liabilities fd),
                Label "N/A", "calculated") /\
        (forall q, is_Some (FinancialData.field_sources fd !! field_key q))).
Proof.
  unfold get_financial_data.
  destruct (latest_bs_date t) as [bs_date|] eqn:Hbs;
    [|split; [split; [intros [? ?]; discriminate
                     | intros (? & ? & ? & _); discriminate]
             | discriminate]].
  destruct (latest_fs_date t) as [fs_date|] eqn:Hfs;
    [|split; [split; [intros [? ?]; discriminate
                     | intros (? & ? & _ & ? & _); discriminate]
             | discriminate]].
  rewrite missing_fields_unresolved.
  destruct (unresolved (resolve ticker_symbol t bs_date fs_date)) as [|q0 qs] eqn:Hun;
    cbn [map];
    [|split; [split; [intros [? ?]; discriminate
                     | intros (b & f & [= <-] & [= <-] & ?); congruence]
             | discriminate]].
  destruct (unresolved_nil_values _ Hun)
    as (ta & tl & ca & cl & re & eb & sa & mc
        & Hta & Htl & Hca & Hcl & Hre & Heb & Hsa & Hmc).
  destruct (resolve_working_capital_value _ _ _ _ _ _ Hca Hcl) as [Hwc Hwce].
  assert (Hent : forall q,
    is_Some (field_values (resolve ticker_symbol t bs_date fs_date) !! field_key q)).
  { intros q. rewrite resolve_entry.
    pose proof (resolve_value ticker_symbol t bs_date fs_date q) as Hv.
    destruct (attempt ticker_symbol t bs_date fs_date q) as [[v e]|];
      [by eexists|].
    apply unresolved_spec in Hv. rewrite Hun in Hv. destruct Hv. }
  unfold result_data, result_error. cbn [fst snd].
  unfold financial_data. rewrite Hta, Htl, Hca, Hcl, Hwc, Hre, Heb, Hsa, Hmc.
  split.
  - split; [|by eexists]. intros _. by exists bs_date, fs_date.
  - intros fd [= <-]. split; [done|]. exists bs_date, fs_date.
    cbn [FinancialData.ticker FinancialData.report_date
         FinancialData.total_assets FinancialData.total_liabilities
         FinancialData.current_assets FinancialData.current_liabilities
         FinancialData.working_capital FinancialData.retained_earnings
         FinancialData.ebit FinancialData.sales
         FinancialData.market_value_equity FinancialData.field_sources].
    split; [done|]. split; [done|]. split; [done|]. split; [done|].
    split; [by intros []|]. split; [done|]. split; [done|].
    split; [exact Hwce | exact Hent].
Qed.

(** X8: a call returns either data or an error, never both and never
    neither; the error is the "no data" text, or the "missing" text followed
    by a non-empty list of quantity names. *)
Theorem data_or_error (ticker_symbol : string) (t : Ticker) :
  (is_Some (result_data (get_financial_data ticker_symbol t)) <->
   result_error (get_financial_data ticker_symbol t) = None) /\
  (result_data (get_financial_data ticker_symbol t) = None ->
   result_error (get_financial_data ticker_symbol t) = Some no_data_error \/
   exists q qs,
     result_error (get_financial_data ticker_symbol t)
     = Some ("Missing required financial data: "
             ++ String.concat ", " (map display_name (q :: qs)))).
Proof.
  unfold get_financial_data, result_data, result_error.
  destruct (latest_bs_date t) as [bs_date|];
    [|cbn [fst snd]; split;
      [split; [intros [? ?]; discriminate | discriminate] | by left]].
  destruct (latest_fs_date t) as [fs_date|];
    [|cbn [fst snd]; split;
      [split; [intros [? ?]; discriminate | discriminate] | by left]].
  rewrite missing_fields_unresolved.
  destruct (unresolved (resolve ticker_symbol t bs_date fs_date)) as [|q qs] eqn:Hun;
    cbn [map fst snd].
  - destruct (unresolved_nil_values _ Hun)
      as (ta & tl & ca & cl & re & eb & sa & mc
          & Hta & Htl & Hca & Hcl & Hre & Heb & Hsa & Hmc).
    destruct (resolve_working_capital_value _ _ _ _ _ _ Hca Hcl) as [Hwc _].
    unfold financial_data. rewrite Hta, Htl, Hca, Hcl, Hwc, Hre, Heb, Hsa, Hmc.
    split; [split; [done | by eexists] | discriminate].
  - split; [split; [intros [? ?]; discriminate | discriminate]|].
    intros _. right. by exists q, qs.
Qed.

(** ** Available fields *)

Lemma add_fields_eq key df (m : gmap string (list string)) :
  m !! key = None ->
  add_fields key df m !! key = if pd.empty df then None else Some (pd.index df).
Proof.
  unfold add_fields. intros H.
  destruct (pd.empty df); [done | by rewrite lookup_insert_eq].
Qed.

Lemma add_fields_ne key key' df (m : gmap string (list string)) :
  key <> key' -> add_fields key df m !! key' = m !! key'.
Proof.
  unfold add_fields. intros H.
  destruct (pd.empty df); [done | by rewrite lookup_insert_ne].
Qed.

Lemma add_fields_other key key' df (m : gmap string (list string)) :
  is_Some (add_fields key df m !! key') -> key' = key \/ is_Some (m !! key').
Proof.
  destruct (decide (key = key')) as [->|Hne]; [by left|].
  rewrite add_fields_ne by done. by right.
Qed.

Ltac fields_lookup :=
  unfold statement_fields;
  repeat (rewrite add_fields_ne by done);
  rewrite add_fields_eq; [reflexivity|];
  repeat (rewrite add_fields_ne by done);
  apply lookup_empty.

(** X9: whatever the outcome, the third component of the result maps each
    statement's name to its row labels for exactly the non-empty statements,
    and has no other key. *)
Theorem available_fields_contents (ticker_symbol : string) (t : Ticker) :
  result_fields (get_financial_data ticker_symbol t) = statement_fields t /\
  statement_fields t !! "balance_sheet"
  = (if pd.empty (balance_sheet t) then None
     else Some (pd.index (balance_sheet t))) /\
  statement_fields t !! "financials"
  = (if pd.empty (financials t) then None else Some (pd.index (financials t))) /\
  statement_fields t !! "quarterly_balance_sheet"
  = (if pd.empty (quarterly_balance_sheet t) then None
     else Some (pd.index (quarterly_balance_sheet t))) /\
  statement_fields t !! "quarterly_financials"
  = (if pd.empty (quarterly_financials t) then None
     else Some (pd.index (quarterly_financials t))) /\
  (forall key, is_Some (statement_fields t !! key) ->
               In key ["balance_sheet"; "financials"; "quarterly_balance_sheet";
                       "quarterly_financials"]).
Proof.
  split.
  { unfold get_financial_data, result_fields.
    destruct (latest_bs_date t), (latest_fs_date t); try reflexivity.
    by destruct (missing_fields _). }
  split; [fields_lookup|]. split; [fields_lookup|].
  split; [fields_lookup|]. split; [fields_lookup|].
  intros key H. unfold statement_fields in H.
  apply add_fields_other in H. destruct H as [-> | H]; [cbn; tauto|].
  apply add_fields_other in H. destruct H as [-> | H]; [cbn; tauto|].
  apply add_fields_other in H. destruct H as [-> | H]; [cbn; tauto|].
  apply add_fields_other in H. destruct H as [-> | H]; [cbn; tauto|].
  rewrite lookup_empty in H. destruct H. discriminate.
Qed.

(** * Further properties of the historical series *)

(** ** Ties between income statements *)

Lemma closest_keep bs_date is_dates closest_date closest_diff :
  (forall d, In d is_dates -> (closest_diff <= pd.abs_diff_days bs_date d)%Z) ->
  closest bs_date is_dates closest_date closest_diff = (closest_date, closest_diff).
Proof.
  induction is_dates as [|x rest IH]; intros H; cbn [closest]; [reflexivity|].
  assert (E : (pd.abs_diff_days bs_date x <? closest_diff)%Z = false).
  { apply Z.ltb_ge. apply H. by left. }
  rewrite E. apply IH. intros d Hd. apply H. by right.
Qed.

Lemma closest_first_minimal bs_date before d after closest_date closest_diff :
  (pd.abs_diff_days bs_date d < closest_diff)%Z ->
  (forall x, In x before ->
             (pd.abs_diff_days bs_date d < pd.abs_diff_days bs_date x)%Z) ->
  (forall x, In x after ->
             (pd.abs_diff_days bs_date d <= pd.abs_diff_days bs_date x)%Z) ->
  closest bs_date (before ++ d :: after) closest_date closest_diff
  = (Some d, pd.abs_diff_days bs_date d).
Proof.
  revert closest_date closest_diff.
  induction before as [|x before IH]; intros closest_date closest_diff Hlt Hb Ha.
  - cbn [app closest].
    apply Z.ltb_lt in Hlt. rewrite Hlt. by apply closest_keep.
  - cbn [app closest].
    assert (Hx : (pd.abs_diff_days bs_date d < pd.abs_diff_days bs_date x)%Z)
      by (apply Hb; by left).
    assert (Hb' : forall y, In y before ->
      (pd.abs_diff_days bs_date d < pd.abs_diff_days bs_date y)%Z)
      by (intros y Hy; apply Hb; by right).
    destruct (pd.abs_diff_days bs_date x <? closest_diff)%Z; by apply IH.
Qed.

(** X10: among income-statement periods at the same minimal distance from a
    balance-sheet period, the one listed first is the one paired: a period
    that is strictly closer than every period listed before it and at least
    as close as every period listed after it is chosen, provided it is less
    than 365 days away; when every period is 365 days away or more, none is
    chosen. *)
Theorem closest_tie_goes_to_first :
  (forall bs_date before d after,
      (pd.abs_diff_days bs_date d < 365)%Z ->
      (forall x, In x before ->
                 (pd.abs_diff_days bs_date d < pd.abs_diff_days bs_date x)%Z) ->
      (forall x, In x after ->
                 (pd.abs_diff_days bs_date d <= pd.abs_diff_days bs_date x)%Z) ->
      closest bs_date (before ++ d :: after) None 365
      = (Some d, pd.abs_diff_days bs_date d)) /\
  (forall bs_date is_dates,
      (forall x, In x is_dates -> (365 <= pd.abs_diff_days bs_date x)%Z) ->
      closest bs_date is_dates None 365 = (None, 365%Z)) /\
  closest dec_31_2020 [pd.mkTimestamp 2021 1 10; pd.mkTimestamp 2020 12 21] None 365
  = (Some (pd.mkTimestamp 2021 1 10), 10%Z).
Proof.
  split; [|split].
  - intros. by apply closest_first_minimal.
  - intros. by apply closest_keep.
  - reflexivity.
Qed.

(** ** Outcomes of the series builder *)

Lemma find_is_Some {A : Type} (f : A -> bool) (l : list A) (x : A) :
  In x l -> f x = true -> exists y, List.find f l = Some y.
Proof.
  intros Hin Hf. destruct (List.find f l) as [y|] eqn:E; [by exists y|].
  pose proof (find_none _ _ E _ Hin). congruence.
Qed.

(** A period that yields a point puts its year into the collected points. *)
Lemma collect_year t d :
  In d (pd.columns (balance_sheet t)) ->
  is_Some (period_point t d) ->
  In (pd.year d) (map date (fst (collect t))).
Proof.
  intros Hin [p Hp].
  destruct (series_invariant_collect t) as (_ & _ & Hfrom & _).
  assert (Hpr : produces t (pd.year d) d = true).
  { apply produces_spec. split; [done | by eexists]. }
  destruct (find_is_Some _ _ _ Hin Hpr) as [d0 Hd0].
  destruct (find_some _ _ Hd0) as [_ Hpr0].
  apply produces_spec in Hpr0. destruct Hpr0 as [Hy [p0 Hp0]].
  pose proof (period_point_date _ _ _ Hp0) as Hdate.
  apply in_map_iff. exists p0. split; [congruence|].
  apply Hfrom. exists d0. split; [|done].
  unfold first_producing. by rewrite Hdate, Hy.
Qed.

Lemma collect_from_period t p :
  In p (fst (collect t)) ->
  exists d, In d (pd.columns (balance_sheet t)) /\ period_point t d = Some p.
Proof.
  intros Hp.
  destruct (series_invariant_collect t) as (_ & _ & Hfrom & _).
  apply Hfrom in Hp. destruct Hp as (d & Hf & Hpp).
  exists d. split; [|done]. by destruct (find_some _ _ Hf).
Qed.

(** X11: the three outcomes of the series builder.  It reports "No
    historical data available." exactly when the annual balance sheet or the
    annual income statement is empty; otherwise "Could not calculate
    historical Z-Scores." exactly when no balance-sheet period yields a point;
    otherwise a non-empty series with a point for the year of every yielding
    period.  Quarterly statements and alternative spellings are not
    consulted: when one of the seven rows or the market capitalisation is
    missing, no series is returned. *)
Theorem historical_outcomes (t : Ticker) (years : Z) :
  (get_historical_financials t years = (None, Some "No historical data available.")
   <-> pd.empty (balance_sheet t) || pd.empty (financials t) = true) /\
  (get_historical_financials t years
   = (None, Some "Could not calculate historical Z-Scores.")
   <-> pd.empty (balance_sheet t) || pd.empty (financials t) = false /\
       forall d, In d (pd.columns (balance_sheet t)) -> period_point t d = None) /\
  (forall d,
      pd.empty (balance_sheet t) || pd.empty (financials t) = false ->
      In d (pd.columns (balance_sheet t)) ->
      is_Some (period_point t d) ->
      exists l, get_historical_financials t years = (Some l, None) /\
                l <> [] /\ In (pd.year d) (map date l)) /\
  (values_available t = false -> fst (get_historical_financials t years) = None).
Proof.
  assert (Hnil : fst (collect t) = [] <->
    forall d, In d (pd.columns (balance_sheet t)) -> period_point t d = None).
  { split.
    - intros H d Hin. destruct (period_point t d) as [p|] eqn:E; [|done].
      assert (Hs : is_Some (period_point t d)) by (by eexists).
      pose proof (collect_year t d Hin Hs) as Hy. rewrite H in Hy. destruct Hy.
    - intros H. destruct (fst (collect t)) as [|p rest] eqn:E; [done|].
      destruct (collect_from_period t p) as (d & Hin & Hp);
        [rewrite E; by left|].
      rewrite (H d Hin) in Hp. discriminate. }
  unfold get_historical_financials.
  destruct (pd.empty (balance_sheet t) || pd.empty (financials t)) eqn:Hempty.
  - split; [done|]. split; [|split].
    + split; [discriminate | intros [? _]; discriminate].
    + discriminate.
    + done.
  - split; [split; [|discriminate]|].
    { destruct (fst (collect t)); discriminate. }
    split; [|split].
    + rewrite <- Hnil.
      destruct (fst (collect t)) as [|p rest]; split; try done.
      * intros [_ ?]. discriminate.
    + intros d _ Hin Hs. pose proof (collect_year t d Hin Hs) as Hy.
      destruct (fst (collect t)) as [|p rest] eqn:E; [destruct Hy|].
      eexists. split; [reflexivity|]. split.
      * intros Hsort.
        pose proof (Permutation_length (sort_values_perm (p :: rest))) as Hlen.
        rewrite Hsort in Hlen. discriminate.
      * apply in_map_iff in Hy. destruct Hy as (q & Hq & Hin').
        apply in_map_iff. exists q. split; [done|].
        eapply Permutation_in; [|exact Hin']. symmetry. apply sort_values_perm.
    + intros Hav.
      assert (Hall : forall d, In d (pd.columns (balance_sheet t)) ->
                               period_point t d = None).
      { intros d _. destruct (period_point t d) as [p|] eqn:E; [|done].
        assert (Hs : is_Some (period_point t d)) by (by eexists).
        apply period_point_is_Some in Hs. destruct Hs as [_ Hs]. congruence. }
      apply Hnil in Hall. by rewrite Hall.
Qed.

(** X12: every point of a returned series is computed from one annual
    balance-sheet period and an income-statement period at most 180 days from
    it: its year is that period's year, its ratios are the period's cells
    over total assets, its market-equity ratio uses the one current market
    capitalisation over that period's total liabilities, and its score is
    [calculate_z_score] of its own five ratios. *)
Theorem series_points (t : Ticker) (years : Z) (l : list HistoricalPoint) :
  fst (get_historical_financials t years) = Some l ->
  List.Forall
    (fun p =>
       exists d cd mc,
         In d (pd.columns (balance_sheet t)) /\
         In cd (pd.columns (financials t)) /\
         (pd.abs_diff_days d cd <= 180)%Z /\
         dict_get (numbers (info t)) "marketCap" = Some mc /\
         date p = pd.year d /\
         working_capital_ratio p
         = ((pd.loc (balance_sheet t) "Total Current Assets" d
             - pd.loc (balance_sheet t) "Total Current Liabilities" d)
            / pd.loc (balance_sheet t) "Total Assets" d)%Q /\
         retained_earnings_ratio p
         = (pd.loc (balance_sheet t) "Retained Earnings" d
            / pd.loc (balance_sheet t) "Total Assets" d)%Q /\
         ebit_ratio p
         = (pd.loc (financials t) "Ebit" cd
            / pd.loc (balance_sheet t) "Total Assets" d)%Q /\
         market_equity_ratio p
         = (mc / pd.loc (balance_sheet t) "Total Liab" d)%Q /\
         sales_ratio p
         = (pd.loc (financials t) "Total Revenue" cd
            / pd.loc (balance_sheet t) "Total Assets" d)%Q /\
         z_score p
         = calculate_z_score (working_capital_ratio p) (retained_earnings_ratio p)
             (ebit_ratio p) (market_equity_ratio p) (sales_ratio p))
    l.
Proof.
  intros H. apply get_historical_financials_Some in H. destruct H as (_ & -> & _).
  apply List.Forall_forall. intros p Hp.
  apply (Permutation_in _ (sort_values_perm _)) in Hp.
  apply collect_from_period in Hp. destruct Hp as (d & Hin & Hp).
  apply period_point_Some in Hp.
  destruct Hp as (cd & mc & Hcd & _ & Hle & _ & Hmc & ->).
  exists d, cd, mc. cbn. auto 12.
Qed.

Lemma series_points_witness :
  List.Forall
    (fun p =>
       exists d cd mc,
         In d (pd.columns (balance_sheet two_years)) /\
         In cd (pd.columns (financials two_years)) /\
         (pd.abs_diff_days d cd <= 180)%Z /\
         dict_get (numbers (info two_years)) "marketCap" = Some mc /\
         date p = pd.year d /\
         working_capital_ratio p
         = ((pd.loc (balance_sheet two_years) "Total Current Assets" d
             - pd.loc (balance_sheet two_years) "Total Current Liabilities" d)
            / pd.loc (balance_sheet two_years) "Total Assets" d)%Q /\
         retained_earnings_ratio p
         = (pd.loc (balance_sheet two_years) "Retained Earnings" d
            / pd.loc (balance_sheet two_years) "Total Assets" d)%Q /\
         ebit_ratio p
         = (pd.loc (financials two_years) "Ebit" cd
            / pd.loc (balance_sheet two_years) "Total Assets" d)%Q /\
         market_equity_ratio p
         = (mc / pd.loc (balance_sheet two_years) "Total Liab" d)%Q /\
         sales_ratio p
         = (pd.loc (financials two_years) "Total Revenue" cd
            / pd.loc (balance_sheet two_years) "Total Assets" d)%Q /\
         z_score p
         = calculate_z_score (working_capital_ratio p) (retained_earnings_ratio p)
             (ebit_ratio p) (market_equity_ratio p) (sales_ratio p))
    (sort_values (fst (collect two_years))).
Proof.
  apply (series_points two_years 5).
  vm_compute. reflexivity.
Defined.

(** * The score shown and the latest point of the series *)

Lemma first_column_head df d :
  first_column df = Some d ->
  pd.empty df = false /\ exists rest, pd.columns df = d :: rest.
Proof.
  unfold first_column. destruct (pd.empty df); [discriminate|].
  destruct (pd.columns df) as [|x rest]; [discriminate|].
  intros [= ->]. split; [done | by exists rest].
Qed.

Lemma direct_bs_first t bs_date f rest :
  pd.empty (balance_sheet t) = false ->
  pd.in_index f (balance_sheet t) = true ->
  direct (bs_attempts t bs_date (f :: rest)) "balance_sheet"
  = Some (pd.loc (balance_sheet t) f bs_date, (Text f, At bs_date, "balance_sheet")).
Proof.
  intros He Hin. unfold bs_attempts. apply direct_two_sources; [done|].
  cbn [first_in_index]. by rewrite Hin.
Qed.

Lemma direct_fs_first t fs_date f rest :
  pd.empty (financials t) = false ->
  pd.in_index f (financials t) = true ->
  direct (fs_attempts t fs_date (f :: rest)) "financials"
  = Some (pd.loc (financials t) f fs_date, (Text f, At fs_date, "financials")).
Proof.
  intros He Hin. unfold fs_attempts. apply direct_two_sources; [done|].
  cbn [first_in_index]. by rewrite Hin.
Qed.

Lemma values_available_rows t :
  values_available t = true ->
  pd.in_index "Total Assets" (balance_sheet t) = true /\
  pd.in_index "Total Liab" (balance_sheet t) = true /\
  pd.in_index "Total Current Assets" (balance_sheet t) = true /\
  pd.in_index "Total Current Liabilities" (balance_sheet t) = true /\
  pd.in_index "Retained Earnings" (balance_sheet t) = true /\
  pd.in_index "Ebit" (financials t) = true /\
  pd.in_index "Total Revenue" (financials t) = true /\
  exists mc, dict_get (numbers (info t)) "marketCap" = Some mc.
Proof.
  unfold values_available. cbn [forallb]. rewrite !andb_true_iff.
  intros [[(? & ? & ? & ? & ? & _) (? & ? & _)] Hmc].
  repeat split; try done.
  destruct (dict_get (numbers (info t)) "marketCap") as [mc|]; [by exists mc | done].
Qed.

(** X13: the point-in-time score and the series agree on the latest period.
    For a symbol other than AAPL whose annual statements list the seven rows
    under their first spellings and whose info has the market capitalisation,
    if the first income-statement period is within 180 days of the first
    balance-sheet period and no other is closer, then resolution succeeds,
    that period yields a point, and the score [main] computes from the
    resolved data is that point's Z-Score, with the same five ratios. *)
Theorem score_agrees_with_latest_point ticker_symbol t bs_date fs_date :
  upper ticker_symbol <> "AAPL" ->
  first_column (balance_sheet t) = Some bs_date ->
  first_column (financials t) = Some fs_date ->
  values_available t = true ->
  (pd.abs_diff_days bs_date fs_date <= 180)%Z ->
  (forall d, In d (pd.columns (financials t)) ->
             (pd.abs_diff_days bs_date fs_date <= pd.abs_diff_days bs_date d)%Z) ->
  exists fd p,
    get_financial_data ticker_symbol t
    = (Some fd, None, statement_fields t,
       Field_values (field_values (resolve ticker_symbol t bs_date fs_date))) /\
    period_point t bs_date = Some p /\
    fst (score fd) = z_score p /\
    snd (score fd) = interpret_z_score (z_score p) /\
    (FinancialData.working_capital fd / FinancialData.total_assets fd)%Q
    = working_capital_ratio p /\
    (FinancialData.retained_earnings fd / FinancialData.total_assets fd)%Q
    = retained_earnings_ratio p /\
    (FinancialData.ebit fd / FinancialData.total_assets fd)%Q = ebit_ratio p /\
    (FinancialData.market_value_equity fd / FinancialData.total_liabilities fd)%Q
    = market_equity_ratio p /\
    (FinancialData.sales fd / FinancialData.total_assets fd)%Q = sales_ratio p.
Proof.
  intros Hsym Hbs Hfs Hav Hle Hmin.
  destruct (first_column_head _ _ Hbs) as [Heb _].
  destruct (first_column_head _ _ Hfs) as [Hef [rest Hcols]].
  destruct (values_available_rows t Hav)
    as (Rta & Rtl & Rca & Rcl & Rre & Reb & Rsa & mc & Rmc).
  assert (Hlb : latest_bs_date t = Some bs_date)
    by (unfold latest_bs_date; by rewrite dates_bs, Hbs).
  assert (Hlf : latest_fs_date t = Some fs_date)
    by (unfold latest_fs_date; by rewrite dates_fs, Hfs).
  apply String.eqb_neq in Hsym.
  assert (Hta : resolve_total_assets t bs_date
                = Some (pd.loc (balance_sheet t) "Total Assets" bs_date,
                        (Text "Total Assets", At bs_date, "balance_sheet")))
    by (by apply direct_bs_first).
  assert (Htl : resolve_total_liabilities t bs_date (value (resolve_total_assets t bs_date))
                = Some (pd.loc (balance_sheet t) "Total Liab" bs_date,
                        (Text "Total Liab", At bs_date, "balance_sheet"))).
  { unfold resolve_total_liabilities, total_liabilities_fields.
    by rewrite (direct_bs_first t bs_date _ _ Heb Rtl). }
  assert (Hca : resolve_current_assets ticker_symbol t bs_date
                = Some (pd.loc (balance_sheet t) "Total Current Assets" bs_date,
                        (Text "Total Current Assets", At bs_date, "balance_sheet"))).
  { unfold resolve_current_assets, lookup_current_assets, current_assets_fields.
    by rewrite Hsym, (direct_bs_first t bs_date _ _ Heb Rca). }
  assert (Hcl : resolve_current_liabilities ticker_symbol t bs_date
                = Some (pd.loc (balance_sheet t) "Total Current Liabilities" bs_date,
                        (Text "Total Current Liabilities", At bs_date,
                         "balance_sheet"))).
  { unfold resolve_current_liabilities, lookup_current_liabilities,
      current_liabilities_fields.
    by rewrite Hsym, (direct_bs_first t bs_date _ _ Heb Rcl). }
  assert (Hre : resolve_retained_earnings t bs_date
                = Some (pd.loc (balance_sheet t) "Retained Earnings" bs_date,
                        (Text "Retained Earnings", At bs_date, "balance_sheet"))).
  { unfold resolve_retained_earnings, retained_earnings_fields.
    by rewrite (direct_bs_first t bs_date _ _ Heb Rre). }
  assert (Heb' : resolve_ebit t fs_date
                 = Some (pd.loc (financials t) "Ebit" fs_date,
                         (Text "Ebit", At fs_date, "financials"))).
  { unfold resolve_ebit, ebit_fields.
    by rewrite (direct_fs_first t fs_date _ _ Hef Reb). }
  assert (Hsa : resolve_sales t fs_date
                = Some (pd.loc (financials t) "Total Revenue" fs_date,
                        (Text "Total Revenue", At fs_date, "financials")))
    by (by apply direct_fs_first).
  assert (Hmc : resolve_market_cap t
                = Some (mc, (Text "marketCap", Label "current", "ticker.info")))
    by (unfold resolve_market_cap; by rewrite Rmc).
  assert (Hpoint : exists p,
    period_point t bs_date = Some p /\
    p = {| date := pd.year bs_date;
           z_score :=
             calculate_z_score
               ((pd.loc (balance_sheet t) "Total Current Assets" bs_date
                 - pd.loc (balance_sheet t) "Total Current Liabilities" bs_date)
                / pd.loc (balance_sheet t) "Total Assets" bs_date)
               (pd.loc (balance_sheet t) "Retained Earnings" bs_date
                / pd.loc (balance_sheet t) "Total Assets" bs_date)
               (pd.loc (financials t) "Ebit" fs_date
                / pd.loc (balance_sheet t) "Total Assets" bs_date)
               (mc / pd.loc (balance_sheet t) "Total Liab" bs_date)
               (pd.loc (financials t) "Total Revenue" fs_date
                / pd.loc (balance_sheet t) "Total Assets" bs_date);
           working_capital_ratio :=
             (pd.loc (balance_sheet t) "Total Current Assets" bs_date
              - pd.loc (balance_sheet t) "Total Current Liabilities" bs_date)
             / pd.loc (balance_sheet t) "Total Assets" bs_date;
           retained_earnings_ratio :=
             pd.loc (balance_sheet t) "Retained Earnings" bs_date
             / pd.loc (balance_sheet t) "Total Assets" bs_date;
           ebit_ratio :=
             pd.loc (financials t) "Ebit" fs_date
             / pd.loc (balance_sheet t) "Total Assets" bs_date;
           market_equity_ratio :=
             mc / pd.loc (balance_sheet t) "Total Liab" bs_date;
           sales_ratio :=
             pd.loc (financials t) "Total Revenue" fs_date
             / pd.loc (balance_sheet t) "Total Assets" bs_date |}).
  { eexists. split; [|reflexivity].
    unfold period_point. rewrite Hcols.
    assert (Hc : closest bs_date (fs_date :: rest) None 365
                 = (Some fs_date, pd.abs_diff_days bs_date fs_date)).
    { apply (closest_first_minimal bs_date [] fs_date rest None 365);
        [lia | intros x [] | intros x Hx; apply Hmin; rewrite Hcols; by right]. }
    rewrite Hc.
    assert (E : (180 <? pd.abs_diff_days bs_date fs_date)%Z = false)
      by (by apply Z.ltb_ge).
    rewrite E.
    destruct (values_available_cells t bs_date fs_date Hav)
      as (-> & -> & -> & -> & -> & -> & -> & _).
    by rewrite Rmc. }
  destruct Hpoint as (p & Hp & Hpeq).
  eexists _, p. split; [|split; [exact Hp|]].
  - unfold get_financial_data. rewrite Hlb, Hlf.
    unfold missing_fields, financial_data, resolve.
    cbn [total_assets total_liabilities current_assets current_liabilities
         retained_earnings ebit sales market_cap working_capital field_values].
    rewrite Hta. cbn [value]. rewrite Hta in Htl. cbn [value] in Htl.
    rewrite Htl, Hca, Hcl, Hre, Heb', Hsa, Hmc.
    cbn [value resolve_working_capital append_if_None]. reflexivity.
  - subst p. cbn. auto 10.
Qed.

Lemma score_agrees_with_latest_point_witness :
  exists fd p,
    get_financial_data "MSFT" complete
    = (Some fd, None, statement_fields complete,
       Field_values (field_values (resolve "MSFT" complete fy2023 fy2023))) /\
    period_point complete fy2023 = Some p /\
    fst (score fd) = z_score p /\
    snd (score fd) = interpret_z_score (z_score p) /\
    (FinancialData.working_capital fd / FinancialData.total_assets fd)%Q
    = working_capital_ratio p /\
    (FinancialData.retained_earnings fd / FinancialData.total_assets fd)%Q
    = retained_earnings_ratio p /\
    (FinancialData.ebit fd / FinancialData.total_assets fd)%Q = ebit_ratio p /\
    (FinancialData.market_value_equity fd / FinancialData.total_liabilities fd)%Q
    = market_equity_ratio p /\
    (FinancialData.sales fd / FinancialData.total_assets fd)%Q = sales_ratio p.
Proof.
  apply (score_agrees_with_latest_point "MSFT" complete fy2023 fy2023).
  - vm_compute. discriminate.
  - vm_compute. reflexivity.
  - vm_compute. reflexivity.
  - vm_compute. reflexivity.
  - vm_compute. discriminate.
  - intros d [<- | []]. vm_compute. discriminate.
Defined.

(** * Company search *)

Lemma add_popular_tickers query matches entry :
  map company_ticker (add_popular query matches entry)
  = map company_ticker matches \/
  (query_matches query entry = true /\
   ~ In (fst entry) (map company_ticker matches) /\
   add_popular query matches entry
   = (matches ++ [ {| company_ticker := fst entry;
                      company_name := snd entry;
                      company_exchange := "Popular Stock" |} ])%list).
Proof.
  unfold add_popular.
  destruct (query_matches query entry); [|by left].
  destruct (existsb _ matches) eqn:E; [by left|].
  right. split; [done|]. split; [|done].
  intros Hin. apply in_map_iff in Hin. destruct Hin as (m & Hm & Hin).
  assert (Habs : existsb (fun m => String.eqb (company_ticker m) (fst entry)) matches
                 = true).
  { apply existsb_exists. exists m. split; [done|]. by apply String.eqb_eq. }
  congruence.
Qed.

Lemma add_popular_NoDup query matches entry :
  List.NoDup (map company_ticker matches) ->
  List.NoDup (map company_ticker (add_popular query matches entry)).
Proof.
  intros H.
  destruct (add_popular_tickers query matches entry) as [-> | (_ & Hnew & ->)];
    [done|].
  rewrite map_app. cbn.
  apply NoDup_rev in H. rewrite <- (rev_involutive (_ ++ _)).
  apply NoDup_rev. rewrite rev_app_distr. cbn. constructor; [|done].
  by rewrite <- in_rev.
Qed.

Lemma fold_add_popular_NoDup query entries matches :
  List.NoDup (map company_ticker matches) ->
  List.NoDup (map company_ticker (fold_left (add_popular query) entries matches)).
Proof.
  revert matches. induction entries as [|e rest IH]; intros matches H; [done|].
  cbn [fold_left]. apply IH. by apply add_popular_NoDup.
Qed.

(** Matches only grow, at the end of the list. *)
Lemma fold_add_popular_prefix query entries matches :
  exists added,
    fold_left (add_popular query) entries matches = (matches ++ added)%list /\
    forall c, In c added ->
              exists entry,
                In entry entries /\ query_matches query entry = true /\
                c = {| company_ticker := fst entry;
                       company_name := snd entry;
                       company_exchange := "Popular Stock" |}.
Proof.
  revert matches. induction entries as [|e rest IH]; intros matches.
  - exists []. split; [by rewrite app_nil_r | intros c []].
  - cbn [fold_left]. destruct (IH (add_popular query matches e)) as (added & -> & Hadd).
    assert (Hlift : forall c, In c added ->
      exists entry, In entry (e :: rest) /\ query_matches query entry = true /\
        c = {| company_ticker := fst entry; company_name := snd entry;
               company_exchange := "Popular Stock" |}).
    { intros c Hc. destruct (Hadd c Hc) as (entry & Hin & Hrest).
      exists entry. split; [by right | exact Hrest]. }
    unfold add_popular at 1.
    destruct (query_matches query e) eqn:Hm; [|by exists added].
    destruct (existsb _ matches); [by exists added|].
    eexists (_ :: added). split; [by rewrite <- app_assoc|].
    intros c [<- | Hc]; [|by apply Hlift].
    exists e. split; [by left | done].
Qed.

Lemma fold_add_popular_complete query entries matches entry :
  In entry entries ->
  query_matches query entry = true ->
  In (fst entry)
     (map company_ticker (fold_left (add_popular query) entries matches)).
Proof.
  revert matches. induction entries as [|e rest IH]; intros matches; [intros []|].
  cbn [fold_left]. intros [-> | Hin] Hm; [|by apply IH].
  destruct (fold_add_popular_prefix query rest (add_popular query matches entry))
    as (added & -> & _).
  rewrite map_app. apply in_or_app. left.
  unfold add_popular. rewrite Hm.
  destruct (existsb _ matches) eqn:E.
  - apply existsb_exists in E. destruct E as (m & Hin & Heq).
    apply String.eqb_eq in Heq. apply in_map_iff. by exists m.
  - rewrite map_app. apply in_or_app. right. by left.
Qed.

(** X15: the list of matches never shows a ticker twice; the direct match,
    when there is one, comes first, and everything after it is a popular
    entry that contains the query (ignoring case) in its symbol or its name,
    shown with its table name and the exchange "Popular Stock"; every popular
    entry that contains the query is in the list. *)
Theorem search_companies_matches (query : string)
    (fetched : option (gmap string string)) :
  List.NoDup (map company_ticker (search_companies query fetched)) /\
  (exists popular,
      search_companies query fetched
      = (direct_match query fetched ++ popular)%list /\
      forall c, In c popular ->
                exists entry,
                  In entry popular_tickers /\
                  query_matches query entry = true /\
                  c = {| company_ticker := fst entry;
                         company_name := snd entry;
                         company_exchange := "Popular Stock" |}) /\
  (forall entry,
      In entry popular_tickers ->
      query_matches query entry = true ->
      In (fst entry) (map company_ticker (search_companies query fetched))) /\
  (length (direct_match query fetched) <= 1)%nat.
Proof.
  assert (Hlen : (length (direct_match query fetched) <= 1)%nat).
  { unfold direct_match. destruct (1 <=? _)%nat; [|cbn; lia].
    destruct fetched as [i|]; [|cbn; lia].
    destruct (i !! "longName"); cbn; lia. }
  unfold search_companies. split; [|split; [|split]].
  - apply fold_add_popular_NoDup.
    destruct (direct_match query fetched) as [|c [|c' rest]]; cbn in *;
      [constructor | repeat constructor; intros [] | lia].
  - apply fold_add_popular_prefix.
  - intros entry Hin Hm. by apply fold_add_popular_complete.
  - exact Hlen.
Qed.

Lemma lower_upper_ascii c : lower_ascii (upper_ascii c) = lower_ascii c.
Proof. destruct c as [[] [] [] [] [] [] [] []]; reflexivity. Qed.

Lemma upper_lower_ascii c : upper_ascii (lower_ascii c) = upper_ascii c.
Proof. destruct c as [[] [] [] [] [] [] [] []]; reflexivity. Qed.

Lemma upper_upper_ascii c : upper_ascii (upper_ascii c) = upper_ascii c.
Proof. destruct c as [[] [] [] [] [] [] [] []]; reflexivity. Qed.

Lemma lower_lower_ascii c : lower_ascii (lower_ascii c) = lower_ascii c.
Proof. destruct c as [[] [] [] [] [] [] [] []]; reflexivity. Qed.

Lemma lower_upper s : lower (upper s) = lower s.
Proof. induction s as [|c s IH]; cbn; [done|]. by rewrite lower_upper_ascii, IH. Qed.

Lemma upper_lower s : upper (lower s) = upper s.
Proof. induction s as [|c s IH]; cbn; [done|]. by rewrite upper_lower_ascii, IH. Qed.

Lemma upper_upper s : upper (upper s) = upper s.
Proof. induction s as [|c s IH]; cbn; [done|]. by rewrite upper_upper_ascii, IH. Qed.

Lemma lower_lower s : lower (lower s) = lower s.
Proof. induction s as [|c s IH]; cbn; [done|]. by rewrite lower_lower_ascii, IH. Qed.

Lemma length_upper s : String.length (upper s) = String.length s.
Proof. induction s as [|c s IH]; cbn; [done|]. by rewrite IH. Qed.

Lemma length_lower s : String.length (lower s) = String.length s.
Proof. induction s as [|c s IH]; cbn; [done|]. by rewrite IH. Qed.

Lemma fold_add_popular_ext query query' entries matches :
  lower query = lower query' ->
  fold_left (add_popular query) entries matches
  = fold_left (add_popular query') entries matches.
Proof.
  intros H. revert matches.
  induction entries as [|e rest IH]; intros matches; [done|].
  cbn [fold_left]. rewrite IH. f_equal.
  unfold add_popular, query_matches. by rewrite H.
Qed.

(** X16: the search ignores the case of an ASCII query: for one and the
    same outcome of the remote lookup, such a query, its upper-case form and
    its lower-case form return the same list of matches. *)
Theorem search_companies_ignores_case (query : string)
    (fetched : option (gmap string string)) :
  ascii_only query = true ->
  search_companies (upper query) fetched = search_companies query fetched /\
  search_companies (lower query) fetched = search_companies query fetched.
Proof.
  intros _. unfold search_companies. split.
  - rewrite (fold_add_popular_ext (upper query) query) by apply lower_upper.
    f_equal. unfold direct_match. by rewrite length_upper, upper_upper.
  - rewrite (fold_add_popular_ext (lower query) query) by apply lower_lower.
    f_equal. unfold direct_match. by rewrite length_lower, upper_lower.
Qed.

Lemma search_companies_ignores_case_witness :
  search_companies (upper "Apple") None = search_companies "Apple" None /\
  search_companies (lower "Apple") None = search_companies "Apple" None.
Proof.
  apply (search_companies_ignores_case "Apple" None). reflexivity.
Defined.


(** * Reading of the score *)

Section Monotone.
Local Open Scope Q_scope.

(** X18: a higher score never reads as a worse risk category, and the
    explanation returned is the one that belongs to the category. *)
Theorem category_monotone :
  (forall z z' : Q,
      z <= z' ->
      (risk_rank (fst (interpret_z_score z))
       <= risk_rank (fst (interpret_z_score z')))%Z) /\
  (forall z : Q,
      interpret_z_score z = ("Low Risk", Low_Risk_explanation) \/
      interpret_z_score z = ("Grey Zone", Grey_Zone_explanation) \/
      interpret_z_score z = ("High Risk", High_Risk_explanation)) /\
  (risk_rank "High Risk" < risk_rank "Grey Zone" < risk_rank "Low Risk")%Z.
Proof.
  split; [|split].
  - intros z z' Hle.
    destruct (interpret_z_score_cases z) as [[H1 E] | [(H1 & H2 & E) | [H1 E]]];
      destruct (interpret_z_score_cases z')
        as [[H1' E'] | [(H1' & H2' & E') | [H1' E']]];
      rewrite E, E'; cbn; try lia; exfalso; lra.
  - intros z.
    destruct (interpret_z_score_cases z) as [[_ E] | [(_ & _ & E) | [_ E]]]; auto.
  - by vm_compute.
Qed.

End Monotone.

(** * Primary dates *)

(** X19: the primary balance-sheet date is the first period of the annual
    balance sheet when that statement is non-empty and otherwise the first
    period of the quarterly one; likewise for the income statements.  The
    dictionary of dates has a key for exactly the non-empty statements. *)
Theorem primary_dates (t : Ticker) :
  latest_bs_date t
  = (if pd.empty (balance_sheet t)
     then first_column (quarterly_balance_sheet t)
     else head (pd.columns (balance_sheet t))) /\
  latest_fs_date t
  = (if pd.empty (financials t)
     then first_column (quarterly_financials t)
     else head (pd.columns (financials t))) /\
  (is_Some (statement_dates t !! "bs") <-> pd.empty (balance_sheet t) = false) /\
  (is_Some (statement_dates t !! "fs") <-> pd.empty (financials t) = false) /\
  (is_Some (statement_dates t !! "qbs") <->
   pd.empty (quarterly_balance_sheet t) = false) /\
  (is_Some (statement_dates t !! "qfs") <->
   pd.empty (quarterly_financials t) = false).
Proof.
  assert (Hkey : forall df, is_Some (first_column df) <-> pd.empty df = false).
  { intros df. destruct (pd.empty df) eqn:E.
    - rewrite (first_column_empty _ E). split; [intros [? ?]|]; discriminate.
    - destruct (first_column_nonempty _ E) as [d ->]. split; [done | by eexists]. }
  unfold latest_bs_date, latest_fs_date.
  rewrite dates_bs, dates_fs, dates_qbs, dates_qfs.
  split; [|split; [|repeat split; apply Hkey]].
  - destruct (pd.empty (balance_sheet t)) eqn:E.
    + by rewrite (first_column_empty _ E).
    + destruct (first_column_nonempty _ E) as [d Hd]. rewrite Hd.
      unfold first_column in Hd. by rewrite E in Hd.
  - destruct (pd.empty (financials t)) eqn:E.
    + by rewrite (first_column_empty _ E).
    + destruct (first_column_nonempty _ E) as [d Hd]. rewrite Hd.
      unfold first_column in Hd. by rewrite E in Hd.
Qed.
